(** * Blockchain AML system: the risk assessment engine

    A shallow embedding of the scoring code of the repository:
    - [app.py]: address heuristics, the rule-based fallback predictor, the
      risk aggregator, the recommendation generator and the [/api/predict]
      handler that ties them together;
    - [ml_service/app.py]: the synthetic data generator and the ensemble
      [/predict] endpoint.

    Python [float]s are IEEE 754 binary64 numbers.  They are modelled with the
    executable specification [SpecFloat] of the standard library at precision
    53 and maximal exponent 1024, so every arithmetic step below rounds the
    way the interpreter does. *)

From Stdlib Require Import ZArith List String Ascii Bool Lia.
From Stdlib Require Import Floats.SpecFloat.
From stdpp Require Import base list strings gmap.

Local Open Scope Z_scope.

(** ** Binary64 arithmetic *)

Module F64.

Definition prec : Z := 53.
Definition emax : Z := 1024.

Definition float : Type := spec_float.

Definition add : float -> float -> float := SFadd prec emax.
Definition mul : float -> float -> float := SFmul prec emax.
Definition div : float -> float -> float := SFdiv prec emax.
Definition ltb : float -> float -> bool := SFltb.
Definition leb : float -> float -> bool := SFleb.
Definition eqb : float -> float -> bool := SFeqb.
Definition valid : float -> bool := valid_binary prec emax.

(** [a > b] and [a >= b] as Python writes them. *)
Definition gtb (a b : float) : bool := ltb b a.
Definition geb (a b : float) : bool := leb b a.

(** The nearest binary64 number to an integer (ties to even).  Huge
    integers round to an infinity; [of_int] below turns that into the
    [OverflowError] of the interpreter. *)
Definition of_Z (z : Z) : float := binary_normalize prec emax z 0 false.

(** The nearest binary64 number to the fraction [n / d], [d > 0]: this is
    how a decimal literal such as [0.3] (= 3/10) is read. *)
Definition of_frac (n : Z) (d : positive) : float :=
  match n with
  | Z0 => S754_zero false
  | Zpos p => div (S754_finite false p 0) (S754_finite false d 0)
  | Zneg p => div (S754_finite true p 0) (S754_finite false d 0)
  end.

(** The literals of the source, by mantissa and exponent. *)
Definition zero : float := S754_zero false.
Definition one : float := S754_finite false 4503599627370496 (-52).
Definition c0_005 : float := S754_finite false 5764607523034235 (-60).
Definition c0_01 : float := S754_finite false 5764607523034235 (-59).
Definition c0_1 : float := S754_finite false 7205759403792794 (-56).
Definition c0_2 : float := S754_finite false 7205759403792794 (-55).
Definition c0_3 : float := S754_finite false 5404319552844595 (-54).
Definition c0_4 : float := S754_finite false 7205759403792794 (-54).
Definition c0_5 : float := S754_finite false 4503599627370496 (-53).
Definition c0_6 : float := S754_finite false 5404319552844595 (-53).
Definition c0_7 : float := S754_finite false 6305039478318694 (-53).
Definition c0_8 : float := S754_finite false 7205759403792794 (-53).
Definition c0_85 : float := S754_finite false 7656119366529843 (-53).
Definition c0_95 : float := S754_finite false 8556839292003942 (-53).
Definition c1_5 : float := S754_finite false 6755399441055744 (-52).
Definition c4_0 : float := S754_finite false 4503599627370496 (-50).

(** [min(a, b)] of Python on two floats: the first argument unless the
    second is strictly smaller (so a NaN first argument is returned). *)
Definition min (a b : float) : float := if ltb b a then b else a.

(** Sign bit, and the integer nearest to a non-negative fraction [n / d]
    with ties to even. *)
Definition round_half_even_div (n : Z) (d : Z) : Z :=
  let q := n / d in
  let r := n mod d in
  match 2 * r ?= d with
  | Lt => q
  | Gt => q + 1
  | Eq => if Z.even q then q else q + 1
  end.

(** [|x| * 10^nd] rounded to the nearest integer (ties to even), for a
    finite [x = m * 2^e]. *)
Definition scaled_decimal (m : positive) (e : Z) (nd : nat) : Z :=
  let p10 := 10 ^ Z.of_nat nd in
  match e with
  | Zneg k => round_half_even_div (Zpos m * p10) (2 ^ Zpos k)
  | _ => Zpos m * 2 ^ e * p10
  end.

(** [round(x, nd)] for [nd >= 0]: the decimal with [nd] fractional digits
    nearest to the exact value of [x] (ties to even), read back as the
    nearest binary64 number.  Zeros, infinities and NaN round to
    themselves; a value that rounds to nothing keeps its sign. *)
Definition round (x : float) (nd : nat) : float :=
  match x with
  | S754_finite s m e =>
      match scaled_decimal m e nd with
      | Zpos n => div (S754_finite s n 0)
                      (S754_finite false (Z.to_pos (10 ^ Z.of_nat nd)) 0)
      | _ => S754_zero s
      end
  | _ => x
  end.

(** [int(x)]: truncation toward zero; NaN and the infinities raise. *)
Definition to_int (x : float) : option Z :=
  match x with
  | S754_zero _ => Some 0
  | S754_finite s m e =>
      let a := match e with
               | Zneg k => Zpos m / 2 ^ Zpos k
               | _ => Zpos m * 2 ^ e
               end in
      Some (if s then - a else a)
  | _ => None
  end.

(** [x % k] for a positive int [k], with the sign convention of Python:
    the exact remainder of the division, moved into [[0, k)]; a zero
    remainder is [+0.0], and NaN and the infinities give NaN. *)
Definition pymod (x : float) (k : positive) : float :=
  match x with
  | S754_zero _ => S754_zero false
  | S754_finite s m e =>
      let r := match e with
               | Zneg j => binary_normalize prec emax
                             (Zpos m mod (Zpos k * 2 ^ Zpos j)) e false
               | _ => of_Z ((Zpos m * 2 ^ e) mod Zpos k)
               end in
      match r with
      | S754_zero _ => S754_zero false
      | _ => if s then add (SFopp r) (of_Z (Zpos k)) else r
      end
  | _ => S754_nan
  end.

(** [float(z)] for a Python int: [OverflowError] when it does not fit. *)
Definition of_int (z : Z) : option float :=
  match of_Z z with
  | S754_infinity _ => None
  | f => Some f
  end.

End F64.

Abbreviation float := F64.float.

(** ** Python values

    A number that arrives as JSON is an [int] or a [float]; [True] and
    [False] behave as the ints 1 and 0 in every comparison below.  Other JSON
    types raise [TypeError] in the first comparison that meets them and are
    outside the typed part of the model. *)

Inductive num : Type :=
| NInt (z : Z)
| NFloat (f : float).

(** The float an int operand is converted to in mixed arithmetic.  The
    conversion is exact below 2^53, which covers the counters of this
    program; request fields go through [F64.of_int] instead. *)
Definition num_to_float (x : num) : float :=
  match x with
  | NInt z => F64.of_Z z
  | NFloat f => f
  end.

(** [x > k], [x < k] and [x >= k] against an int literal [k]. *)
Definition num_gt_int (x : num) (k : Z) : bool :=
  match x with
  | NInt z => k <? z
  | NFloat f => F64.gtb f (F64.of_Z k)
  end.

Definition num_lt_int (x : num) (k : Z) : bool :=
  match x with
  | NInt z => z <? k
  | NFloat f => F64.ltb f (F64.of_Z k)
  end.

Definition num_ge_int (x : num) (k : Z) : bool :=
  match x with
  | NInt z => k <=? z
  | NFloat f => F64.geb f (F64.of_Z k)
  end.

(** [x > c] against a float literal. *)
Definition num_gt_float (x : num) (c : float) : bool :=
  F64.gtb (num_to_float x) c.

(** [x += k] for an int literal and [x += c] for a float literal. *)
Definition num_add_int (x : num) (k : Z) : num :=
  match x with
  | NInt z => NInt (z + k)
  | NFloat f => NFloat (F64.add f (F64.of_Z k))
  end.

Definition num_add_float (x : num) (c : float) : num :=
  NFloat (F64.add (num_to_float x) c).

(** [min(x, k)]: the first argument unless the second is strictly smaller. *)
Definition num_min_int (x : num) (k : Z) : num :=
  if num_gt_int x k then NInt k else x.

(** JSON-like values: what [response.json()] returns and what the handlers
    put in their result objects.  A dict keeps its insertion order. *)
#[warnings="-register-all"]
Inductive pyval : Type :=
| PNone
| PBool (b : bool)
| PInt (z : Z)
| PFloat (f : float)
| PStr (s : string)
| PList (l : list pyval)
| PDict (d : list (string * pyval)).

Abbreviation dict := (list (string * pyval)).

Definition of_num (x : num) : pyval :=
  match x with
  | NInt z => PInt z
  | NFloat f => PFloat f
  end.

(** The numeric reading of a value, [None] where arithmetic on it raises
    [TypeError]. *)
Definition as_num (v : pyval) : option num :=
  match v with
  | PBool b => Some (NInt (Z.b2z b))
  | PInt z => Some (NInt z)
  | PFloat f => Some (NFloat f)
  | _ => None
  end.

(** [d.get(k)] and [d.get(k, default)]. *)
Fixpoint dict_get (k : string) (d : dict) : option pyval :=
  match d with
  | [] => None
  | (k', v) :: rest => if String.eqb k k' then Some v else dict_get k rest
  end.

Definition dict_get_default (k : string) (default : pyval) (d : dict) : pyval :=
  match dict_get k d with
  | Some v => v
  | None => default
  end.

(** The set of keys of a dict, and of the dict stored under a key. *)
Definition keys (d : dict) : gset string := list_to_set (d.*1).

(** The fields of a value that is a dict (none otherwise), and of the dict
    stored under a key. *)
Definition fields (v : pyval) : dict :=
  match v with
  | PDict d => d
  | _ => []
  end.

Definition sub_dict (k : string) (d : dict) : dict :=
  fields (dict_get_default k PNone d).

(** ** Strings *)

Definition ascii_lower (c : ascii) : ascii :=
  let n := N_of_ascii c in
  if ((65 <=? n) && (n <=? 90))%N then ascii_of_N (n + 32) else c.

Fixpoint lower (s : string) : string :=
  match s with
  | EmptyString => EmptyString
  | String c rest => String (ascii_lower c) (lower rest)
  end.

(** [s[n:]] and [s[:n]]. *)
Definition str_from (n : nat) (s : string) : string :=
  string_of_list_ascii (drop n (list_ascii_of_string s)).

Definition str_upto (n : nat) (s : string) : string :=
  string_of_list_ascii (take n (list_ascii_of_string s)).

Definition startswith (s p : string) : bool := String.prefix p s.

Definition last_char (s : string) : option ascii :=
  last (list_ascii_of_string s).

(** [s.endswith((c1, ..., cn))] for one-character suffixes. *)
Definition endswith_any (s : string) (cs : list ascii) : bool :=
  match last_char s with
  | Some c => existsb (Ascii.eqb c) cs
  | None => false
  end.

(** [len(set(s))]. *)
Definition distinct_chars (s : string) : nat :=
  size (list_to_set (list_ascii_of_string s) : gset ascii).

(** An address as the handler reads it from the request: [None] is the JSON
    [null].  [not address] holds for [None] and for the empty string. *)
Definition py_not (address : option string) : bool :=
  match address with
  | None => true
  | Some s => String.eqb s ""
  end.

Definition addr_text (address : option string) : string :=
  match address with
  | Some s => s
  | None => ""%string
  end.

(** ** The dashboard application ([app.py]) *)

Module App.

(** *** Address heuristics *)

Definition is_contract_address (address : option string) : bool :=
  if py_not address || negb (String.length (addr_text address) =? 42)%nat
  then false
  else endswith_any (lower (addr_text address)) ["c"; "d"; "e"; "f"]%char.

Definition calculate_address_risk (address : option string) : float :=
  if py_not address then F64.c0_5
  else
    let a := addr_text address in
    let risk := F64.zero in
    let risk := if startswith (lower a) "0x000"
                then F64.add risk F64.c0_3 else risk in
    let risk := if (distinct_chars (str_from 2 a) <? 10)%nat
                then F64.add risk F64.c0_2 else risk in
    F64.min risk F64.one.

Definition are_addresses_related (sender receiver : option string) : bool :=
  if py_not sender || py_not receiver then false
  else String.eqb (str_upto 10 (addr_text sender))
                  (str_upto 10 (addr_text receiver)).

Record address_analysis : Type := {
  sender_is_contract : bool;
  receiver_is_contract : bool;
  sender_risk_score : float;
  receiver_risk_score : float;
  addresses_related : bool
}.

Definition analyze_addresses (sender receiver : option string)
  : address_analysis :=
  {| sender_is_contract := is_contract_address sender;
     receiver_is_contract := is_contract_address receiver;
     sender_risk_score := calculate_address_risk sender;
     receiver_risk_score := calculate_address_risk receiver;
     addresses_related := are_addresses_related sender receiver |}.

(** *** Feature data

    The dict [ml_data] that [api_predict] posts to the model service and
    hands to the fallback predictor: ten fields, in this order. *)

Record ml_data : Type := {
  amount : num;
  frequency_24h : num;
  unique_counterparties : num;
  hour_of_day : num;
  gas_price : num;
  is_contract : bool;
  account_age_days : num;
  balance : num;
  token_type_numeric : Z;
  high_gas_fee : Z
}.

(** *** Fallback predictor *)

(** The running pair [(risk_factors, risk_reasons)] after the five checks. *)
Definition fallback_risk_factors (data : ml_data) : num * list string :=
  let risk_factors := NInt 0 in
  let risk_reasons : list string := [] in
  (* Amount-based risk *)
  let '(risk_factors, risk_reasons) :=
    if num_gt_int (amount data) 10000
    then (num_add_int risk_factors 1,
          risk_reasons ++ ["High transaction amount"%string])
    else (risk_factors, risk_reasons) in
  (* Time-based risk *)
  let '(risk_factors, risk_reasons) :=
    if num_lt_int (hour_of_day data) 6 || num_gt_int (hour_of_day data) 22
    then (num_add_int risk_factors 1,
          risk_reasons ++ ["Unusual transaction time"%string])
    else (risk_factors, risk_reasons) in
  (* Frequency-based risk *)
  let '(risk_factors, risk_reasons) :=
    if num_gt_int (frequency_24h data) 10
    then (num_add_int risk_factors 1,
          risk_reasons ++ ["High transaction frequency"%string])
    else (risk_factors, risk_reasons) in
  (* Gas price risk *)
  let '(risk_factors, risk_reasons) :=
    if num_gt_int (gas_price data) 100
    then (num_add_int risk_factors 1,
          risk_reasons ++ ["Unusually high gas price"%string])
    else (risk_factors, risk_reasons) in
  (* Contract interaction risk *)
  let '(risk_factors, risk_reasons) :=
    if is_contract data
    then (num_add_float risk_factors F64.c0_5,
          risk_reasons ++ ["Interacting with smart contract"%string])
    else (risk_factors, risk_reasons) in
  (risk_factors, risk_reasons).

Definition enhanced_fallback_prediction (data : ml_data) (now : string)
  : dict :=
  let '(risk_factors, risk_reasons) := fallback_risk_factors data in
  let is_illicit := num_ge_int risk_factors 2 in
  let confidence :=
    F64.add F64.c0_7
      (F64.mul (num_to_float (num_min_int risk_factors 3)) F64.c0_1) in
  let risk_score :=
    F64.min (F64.div (num_to_float risk_factors) F64.c4_0) F64.one in
  [ ("prediction", PInt (if is_illicit then 1 else 0));
    ("confidence", PFloat (F64.min confidence F64.c0_95));
    ("risk_score", PFloat risk_score);
    ("risk_factors", PList (map PStr risk_reasons));
    ("source", PStr "enhanced_fallback_model");
    ("models", PDict [
       ("random_forest", PDict [
          ("prediction", PInt (if is_illicit then 1 else 0));
          ("confidence", PFloat confidence) ]);
       ("isolation_forest", PDict [
          ("prediction",
           PInt (if num_gt_float risk_factors F64.c1_5 then 1 else 0));
          ("anomaly_score", PFloat risk_score) ]) ]);
    ("timestamp", PStr now) ]%string.

(** *** Risk aggregator *)

Record transaction_details : Type := {
  td_sender_address : option string;
  td_receiver_address : option string;
  td_amount : float;
  td_token_type : string;
  td_gas_limit : Z;
  td_gas_price_gwei : float;
  td_gas_fee_wei : float;
  td_gas_fee_eth : float;
  td_gas_fee_usd : float;
  td_block_number : pyval;
  td_network : string;
  td_timestamp : string
}.

Inductive risk_level : Type := LOW | MEDIUM | HIGH.

Record risk_assessment : Type := {
  overall_risk_score : float;
  level : risk_level;
  ml_risk : pyval;
  address_risk : float;
  gas_risk : num
}.

(** [v + c] for a float [c]: [None] is the [TypeError] of a non-number or
    the [OverflowError] of an int too large for a float. *)
Definition py_add_float (v : pyval) (c : float) : option float :=
  match as_num v with
  | Some (NInt z) =>
      match F64.of_int z with
      | Some f => Some (F64.add f c)
      | None => None
      end
  | Some (NFloat f) => Some (F64.add f c)
  | None => None
  end.

(** The two additional risk factors of [calculate_risk_assessment]. *)
Definition mean_address_risk (aa : address_analysis) : float :=
  F64.div (F64.add (sender_risk_score aa) (receiver_risk_score aa))
          (F64.of_Z 2).

Definition gas_risk_of (td : transaction_details) : num :=
  if F64.gtb (td_gas_fee_eth td) F64.c0_01 then NFloat F64.c0_1 else NInt 0.

(** The unrounded [overall_risk]; [None] when [ml_result] is no dict
    ([AttributeError]) or its risk score is no number ([TypeError]). *)
Definition overall_risk (ml_result : pyval) (td : transaction_details)
    (aa : address_analysis) : option float :=
  match ml_result with
  | PDict d =>
      let base_risk := dict_get_default "risk_score" (PInt 0) d in
      match py_add_float base_risk
              (F64.mul (mean_address_risk aa) F64.c0_3) with
      | Some s =>
          Some (F64.min (F64.add s (num_to_float (gas_risk_of td))) F64.one)
      | None => None
      end
  | _ => None
  end.

Definition classify_risk (overall : float) : risk_level :=
  if F64.gtb overall F64.c0_7 then HIGH
  else if F64.gtb overall F64.c0_4 then MEDIUM
  else LOW.

Definition calculate_risk_assessment (ml_result : pyval)
    (td : transaction_details) (aa : address_analysis)
  : option risk_assessment :=
  match overall_risk ml_result td aa with
  | Some overall =>
      Some {| overall_risk_score := F64.round overall 3;
              level := classify_risk overall;
              ml_risk := match ml_result with
                         | PDict d => dict_get_default "risk_score" (PInt 0) d
                         | _ => PNone
                         end;
              address_risk := mean_address_risk aa;
              gas_risk := gas_risk_of td |}
  | None => None
  end.

(** *** Recommendation generator *)

(** [v == k] for an int literal. *)
Definition py_eq_int (v : pyval) (k : Z) : bool :=
  match as_num v with
  | Some (NInt z) => z =? k
  | Some (NFloat f) => F64.eqb f (F64.of_Z k)
  | None => false
  end.

Definition generate_recommendations (ml_result : pyval)
    (td : transaction_details) : option (list string) :=
  match ml_result with
  | PDict d =>
      let recommendations : list string := [] in
      let recommendations :=
        if py_eq_int (dict_get_default "prediction" PNone d) 1
        then recommendations ++
             ["ALERT: Transaction flagged as potentially illicit";
              "Recommend manual review by compliance team";
              "Consider additional KYC verification"]%string
        else recommendations in
      let recommendations :=
        if F64.gtb (td_gas_fee_eth td) F64.c0_005
        then recommendations ++
             ["High gas fee detected - verify transaction urgency"%string]
        else recommendations in
      let recommendations :=
        if F64.gtb (td_amount td) (F64.of_Z 10000)
        then recommendations ++
             ["Large transaction amount - enhanced monitoring recommended"
              %string]
        else recommendations in
      Some (match recommendations with
            | [] => ["Transaction appears normal - routine processing"%string]
            | _ => recommendations
            end)
  | _ => None
  end.

(** *** The [/api/predict] handler *)

(** The JSON body of a request.  [None] stands for a missing key, for which
    the handler has a default; an address may also be the JSON [null]. *)
Record request : Type := {
  req_sender_address : option (option string);
  req_receiver_address : option (option string);
  req_amount : option num;
  req_token_type : option string;
  req_gas_limit : option num;
  req_gas_price_gwei : option num;
  req_frequency_24h : option num;
  req_unique_counterparties : option num;
  req_hour_of_day : option num;
  req_account_age_days : option num;
  req_balance : option num
}.

(** What [requests.post(...)] followed by [response.json()] can do. *)
Inductive ml_call : Type :=
| ConnectionError
| Timeout
| InvalidBody
| Responds (body : pyval).

(** What the handler reads from outside: the session, the clock, the chain
    node and the model service. *)
Record environment : Type := {
  authenticated : bool;
  now_request : string;
  now_fallback : string;
  block_number : pyval;
  post_predict : ml_data -> ml_call
}.

Record final_result : Type := {
  fr_transaction_details : transaction_details;
  fr_address_analysis : address_analysis;
  fr_ml_prediction : pyval;
  fr_risk_assessment : risk_assessment;
  fr_recommendations : list string
}.

Inductive http (A : Type) : Type :=
| Ok (body : A)
| Unauthorized
| ServerError.
Arguments Ok {A} body.
Arguments Unauthorized {A}.
Arguments ServerError {A}.

Definition get_or {A : Type} (o : option A) (default : A) : A :=
  match o with
  | Some a => a
  | None => default
  end.

(** [float(x)] and [int(x)] on a JSON number. *)
Definition py_float (x : num) : option float :=
  match x with
  | NInt z => F64.of_int z
  | NFloat f => Some f
  end.

Definition py_int (x : num) : option Z :=
  match x with
  | NInt z => Some z
  | NFloat f => F64.to_int f
  end.

(** The request fields the handler converts, and the gas fee derived from
    them: [(amount, gas_limit, gas_price_gwei, gas_fee_wei, gas_fee_eth)].
    [None] when a conversion raises. *)
Definition extract_transaction (data : request)
  : option (float * Z * float * float * float) :=
  match py_float (get_or (req_amount data) (NInt 1000)),
        py_int (get_or (req_gas_limit data) (NInt 21000)),
        py_float (get_or (req_gas_price_gwei data) (NInt 20)) with
  | Some amount, Some gas_limit, Some gas_price_gwei =>
      match F64.of_int gas_limit with
      | Some gl =>
          let gas_fee_wei :=
            F64.mul gl (F64.mul gas_price_gwei (F64.of_Z (10 ^ 9))) in
          let gas_fee_eth := F64.div gas_fee_wei (F64.of_Z (10 ^ 18)) in
          Some (amount, gas_limit, gas_price_gwei, gas_fee_wei, gas_fee_eth)
      | None => None
      end
  | _, _, _ => None
  end.

(** The feature dict [ml_data] of the handler. *)
Definition build_ml_data (data : request) (amount gas_price_gwei
    gas_fee_eth : float) (aa : address_analysis) : ml_data :=
  {| amount := NFloat amount;
     frequency_24h := get_or (req_frequency_24h data) (NInt 5);
     unique_counterparties :=
       get_or (req_unique_counterparties data) (NInt 3);
     hour_of_day := get_or (req_hour_of_day data) (NInt 12);
     gas_price := NFloat gas_price_gwei;
     is_contract := receiver_is_contract aa;
     account_age_days := get_or (req_account_age_days data) (NInt 365);
     balance := get_or (req_balance data) (NFloat (F64.of_Z 10000));
     token_type_numeric :=
       if String.eqb (get_or (req_token_type data) "ETH"%string) "ETH"
       then 0 else 1;
     high_gas_fee := if F64.gtb gas_fee_eth F64.c0_01 then 1 else 0 |}.

(** The feature dict a request leads to, when its fields convert. *)
Definition request_features (data : request) : option ml_data :=
  match extract_transaction data with
  | Some (amount, _, gas_price_gwei, _, gas_fee_eth) =>
      let sender := get_or (req_sender_address data) (Some ""%string) in
      let receiver := get_or (req_receiver_address data) (Some ""%string) in
      Some (build_ml_data data amount gas_price_gwei gas_fee_eth
              (analyze_addresses sender receiver))
  | None => None
  end.

(** The [try]/[except] around the model service: any exception of the call
    switches to the fallback predictor. *)
Definition ml_prediction (env : environment) (data : ml_data) : pyval :=
  match post_predict env data with
  | Responds body => body
  | ConnectionError | Timeout | InvalidBody =>
      PDict (enhanced_fallback_prediction data (now_fallback env))
  end.

Definition api_predict (env : environment) (data : request)
  : http final_result :=
  if negb (authenticated env) then Unauthorized
  else
    match extract_transaction data with
    | Some (amount, gas_limit, gas_price_gwei, gas_fee_wei, gas_fee_eth) =>
        let sender := get_or (req_sender_address data) (Some ""%string) in
        let receiver := get_or (req_receiver_address data) (Some ""%string) in
        let gas_fee_usd := F64.mul gas_fee_eth (F64.of_Z 2000) in
        let td :=
          {| td_sender_address := sender;
             td_receiver_address := receiver;
             td_amount := amount;
             td_token_type := get_or (req_token_type data) "ETH"%string;
             td_gas_limit := gas_limit;
             td_gas_price_gwei := gas_price_gwei;
             td_gas_fee_wei := gas_fee_wei;
             td_gas_fee_eth := F64.round gas_fee_eth 6;
             td_gas_fee_usd := F64.round gas_fee_usd 2;
             td_block_number := block_number env;
             td_network := "Localhost Anvil";
             td_timestamp := now_request env |} in
        let aa := analyze_addresses sender receiver in
        let ml_data :=
          build_ml_data data amount gas_price_gwei gas_fee_eth aa in
        let ml_result := ml_prediction env ml_data in
        match calculate_risk_assessment ml_result td aa,
              generate_recommendations ml_result td with
        | Some ra, Some recs =>
            Ok {| fr_transaction_details := td;
                  fr_address_analysis := aa;
                  fr_ml_prediction := ml_result;
                  fr_risk_assessment := ra;
                  fr_recommendations := recs |}
        | _, _ => ServerError
        end
    | None => ServerError
    end.

End App.

(** ** The model service ([ml_service/app.py]) *)

Module MLService.

(** *** Synthetic data generator *)

(** [numpy.random]: the global generator is a state that every draw reads
    and advances.  The distributions themselves are left open; all that is
    used of them is that a draw is a function of the state before it. *)
Class NumpyRandom (rng : Type) : Type := {
  (** [np.random.seed(s)]: the state depends on the seed alone *)
  seed : Z -> rng;
  lognormal : float -> float -> rng -> float * rng;
  poisson : float -> rng -> Z * rng;
  normal : float -> float -> rng -> float * rng;
  gamma : float -> float -> rng -> float * rng;
  exponential : float -> rng -> float * rng;
  uniform : float -> float -> rng -> float * rng;
  (** [np.random.choice(a, p=p)] on [n] candidates: the index drawn *)
  choice_index : nat -> option (list float) -> rng -> nat * rng;
  (** [np.random.normal(loc, scales)] on a column of scales: one draw per
      entry, or [None] when numpy rejects the scales ([ValueError]) *)
  normal_column : float -> list float -> rng -> option (list float * rng)
}.

(** One generated transaction: the ten values of the dict, in order. *)
Record transaction : Type := {
  amount : float;
  frequency_24h : Z;
  unique_counterparties : Z;
  hour_of_day : float;
  gas_price : float;
  is_contract : Z;
  account_age_days : float;
  balance : float;
  token_type_numeric : Z;
  high_gas_fee : Z
}.

(** [transaction['high_gas_fee'] = v]. *)
Definition set_high_gas_fee (t : transaction) (v : Z) : transaction :=
  {| amount := amount t;
     frequency_24h := frequency_24h t;
     unique_counterparties := unique_counterparties t;
     hour_of_day := hour_of_day t;
     gas_price := gas_price t;
     is_contract := is_contract t;
     account_age_days := account_age_days t;
     balance := balance t;
     token_type_numeric := token_type_numeric t;
     high_gas_fee := v |}.

(** [df['amount'] = v] and [df['balance'] = v] on one row. *)
Definition set_amount (t : transaction) (v : float) : transaction :=
  {| amount := v;
     frequency_24h := frequency_24h t;
     unique_counterparties := unique_counterparties t;
     hour_of_day := hour_of_day t;
     gas_price := gas_price t;
     is_contract := is_contract t;
     account_age_days := account_age_days t;
     balance := balance t;
     token_type_numeric := token_type_numeric t;
     high_gas_fee := high_gas_fee t |}.

Definition set_balance (t : transaction) (v : float) : transaction :=
  {| amount := amount t;
     frequency_24h := frequency_24h t;
     unique_counterparties := unique_counterparties t;
     hour_of_day := hour_of_day t;
     gas_price := gas_price t;
     is_contract := is_contract t;
     account_age_days := account_age_days t;
     balance := v;
     token_type_numeric := token_type_numeric t;
     high_gas_fee := high_gas_fee t |}.

(** The table: one row per transaction, with its label. *)
Record dataframe : Type := {
  rows : list transaction;
  labels : list Z
}.

Definition feature_names : list string :=
  ["amount"; "frequency_24h"; "unique_counterparties"; "hour_of_day";
   "gas_price"; "is_contract"; "account_age_days"; "balance";
   "token_type_numeric"; "high_gas_fee"]%string.

Section Generator.

Context {rng : Type} `{NumpyRandom rng}.

(** Computations that draw from the global generator. *)
Definition draw (A : Type) : Type := rng -> A * rng.

Definition ret {A : Type} (a : A) : draw A := fun g => (a, g).

Definition bind {A B : Type} (c : draw A) (k : A -> draw B) : draw B :=
  fun g => let '(a, g') := c g in k a g'.

Notation "x <- c ;; k" := (bind c (fun x => k))
  (at level 100, c at next level, right associativity).

(** [np.random.choice([...])]: the candidates are evaluated first, then
    one of them is drawn. *)
Definition choice {A : Type} (a b : A) (rest : list A)
    (p : option (list float)) : draw A :=
  i <- choice_index (2 + length rest) p ;;
  ret (nth i (a :: b :: rest) a).

(** [for _ in range(n): features.append(...)]. *)
Fixpoint repeat_draw {A : Type} (n : nat) (c : draw A) : draw (list A) :=
  match n with
  | O => ret []
  | S n' => x <- c ;; xs <- repeat_draw n' c ;; ret (x :: xs)
  end.

Definition high_gas_fee_flag (t : transaction) : Z :=
  if F64.gtb (gas_price t) (F64.of_Z 50) then 1 else 0.

Definition normal_transaction : draw transaction :=
  amount <- lognormal (F64.of_Z 3) F64.c1_5 ;;
  frequency_24h <- poisson (F64.of_Z 3) ;;
  unique_counterparties <- poisson (F64.of_Z 2) ;;
  hour <- normal (F64.of_Z 12) (F64.of_Z 4) ;;
  gas_price <- gamma (F64.of_Z 2) (F64.of_Z 10) ;;
  is_contract <- choice 0 1 [] (Some [F64.c0_8; F64.c0_2]) ;;
  account_age_days <- exponential (F64.of_Z 365) ;;
  balance <- lognormal (F64.of_Z 4) (F64.of_Z 2) ;;
  token_type_numeric <- choice 0 1 [] (Some [F64.c0_7; F64.c0_3]) ;;
  let transaction :=
    {| amount := amount;
       frequency_24h := frequency_24h;
       unique_counterparties := unique_counterparties;
       hour_of_day := F64.pymod hour 24;
       gas_price := gas_price;
       is_contract := is_contract;
       account_age_days := account_age_days;
       balance := balance;
       token_type_numeric := token_type_numeric;
       high_gas_fee := 0 |} in
  (* Calculate high gas fee flag *)
  ret (set_high_gas_fee transaction (high_gas_fee_flag transaction)).

Definition illicit_transaction : draw transaction :=
  amount_large <- lognormal (F64.of_Z 5) (F64.of_Z 2) ;;
  amount_threshold <- uniform (F64.of_Z 9999) (F64.of_Z 10001) ;;
  amount <- choice amount_large amount_threshold [] None ;;
  frequency_high <- poisson (F64.of_Z 15) ;;
  frequency_24h <- choice frequency_high 1 [] None ;;
  counterparties_many <- poisson (F64.of_Z 8) ;;
  unique_counterparties <- choice 1 counterparties_many [] None ;;
  hour_early <- uniform (F64.of_Z 0) (F64.of_Z 6) ;;
  hour_late <- uniform (F64.of_Z 22) (F64.of_Z 24) ;;
  hour_normal <- normal (F64.of_Z 12) (F64.of_Z 2) ;;
  hour_of_day <-
    choice hour_early hour_late [F64.pymod hour_normal 24] None ;;
  gas_high <- gamma (F64.of_Z 5) (F64.of_Z 20) ;;
  gas_low <- gamma (F64.of_Z 1) (F64.of_Z 5) ;;
  gas_price <- choice gas_high gas_low [] None ;;
  is_contract <- choice 0 1 [] (Some [F64.c0_3; F64.c0_7]) ;;
  age_new <- exponential (F64.of_Z 30) ;;
  age_old <- exponential (F64.of_Z 1000) ;;
  account_age_days <- choice age_new age_old [] None ;;
  balance_small <- lognormal (F64.of_Z 2) (F64.of_Z 1) ;;
  balance_large <- lognormal (F64.of_Z 6) (F64.of_Z 2) ;;
  balance <- choice balance_small balance_large [] None ;;
  token_type_numeric <- choice 0 1 [] (Some [F64.c0_4; F64.c0_6]) ;;
  let transaction :=
    {| amount := amount;
       frequency_24h := frequency_24h;
       unique_counterparties := unique_counterparties;
       hour_of_day := hour_of_day;
       gas_price := gas_price;
       is_contract := is_contract;
       account_age_days := account_age_days;
       balance := balance;
       token_type_numeric := token_type_numeric;
       high_gas_fee := 0 |} in
  (* Calculate high gas fee flag *)
  ret (set_high_gas_fee transaction (high_gas_fee_flag transaction)).

(** [int(n_samples * 0.85)]: [None] when the int does not fit a float. *)
Definition normal_count (n_samples : Z) : option Z :=
  match F64.of_int n_samples with
  | Some n => F64.to_int (F64.mul n F64.c0_85)
  | None => None
  end.

(** [column += np.random.normal(0, column * 0.01)]: the noise column is
    drawn in one call; adding a column of another length raises. *)
Definition add_noise (column : list float) (g : rng)
  : option (list float * rng) :=
  match normal_column (F64.of_Z 0)
          (map (fun v => F64.mul v F64.c0_01) column) g with
  | Some (noise, g') =>
      if (length noise =? length column)%nat
      then Some (zip_with F64.add column noise, g')
      else None
  | None => None
  end.

(** [generate_synthetic_data(n_samples)], run from the generator state
    [g] the caller left behind.  The result is the table, the feature
    names and the state left for the next caller; [None] is an
    exception. *)
Definition generate_synthetic_data (n_samples : Z) (g : rng)
  : option (dataframe * list string * rng) :=
  let g := seed 42 in
  match normal_count n_samples with
  | Some normal_samples =>
      let illicit_samples := n_samples - normal_samples in
      let '(normal_rows, g) :=
        repeat_draw (Z.to_nat normal_samples) normal_transaction g in
      let '(illicit_rows, g) :=
        repeat_draw (Z.to_nat illicit_samples) illicit_transaction g in
      let features := normal_rows ++ illicit_rows in
      let labels := map (fun _ => 0) normal_rows
                    ++ map (fun _ => 1) illicit_rows in
      match add_noise (map amount features) g with
      | Some (amounts, g) =>
          let features := zip_with set_amount features amounts in
          match add_noise (map balance features) g with
          | Some (balances, g) =>
              let features := zip_with set_balance features balances in
              Some ({| rows := features; labels := labels |},
                    feature_names, g)
          | None => None
          end
      | None => None
      end
  | None => None
  end.

End Generator.

(** *** The [/predict] endpoint *)

(** What training leaves in the globals [models], [scaler] and
    [feature_names]: the fitted scaler, the classifier and the anomaly
    detector.  The fitted objects are opaque; [transform] is [None] where
    scikit-learn rejects the features. *)
Record snapshot : Type := {
  scaled : Type;
  scaler_transform : list pyval -> option scaled;
  rf_predict : scaled -> Z;
  rf_predict_proba : scaled -> float * float;
  iso_predict : scaled -> Z;
  fitted_feature_names : list string
}.

Inductive endpoint (A : Type) : Type :=
| Result (body : A)
| HttpError (status : Z).
Arguments Result {A} body.
Arguments HttpError {A} status.

(** [v > k] and [v < k] on a JSON value; [None] is [TypeError]. *)
Definition py_gt_int (v : pyval) (k : Z) : option bool :=
  x ← as_num v; Some (num_gt_int x k).

Definition py_lt_int (v : pyval) (k : Z) : option bool :=
  x ← as_num v; Some (num_lt_int x k).

(** Truth value of a JSON value. *)
Definition truthy (v : pyval) : bool :=
  match v with
  | PNone => false
  | PBool b => b
  | PInt z => negb (z =? 0)
  | PFloat f => negb (F64.eqb f F64.zero)
  | PStr s => negb (String.eqb s "")
  | PList l => match l with [] => false | _ => true end
  | PDict d => match d with [] => false | _ => true end
  end.

(** The ten features read from the posted dict, with their defaults. *)
Definition features_of (transaction_data : dict) : list pyval :=
  [ dict_get_default "amount" (PFloat (F64.of_Z 100)) transaction_data;
    dict_get_default "frequency_24h" (PInt 5) transaction_data;
    dict_get_default "unique_counterparties" (PInt 3) transaction_data;
    dict_get_default "hour_of_day" (PInt 12) transaction_data;
    dict_get_default "gas_price" (PFloat (F64.of_Z 20)) transaction_data;
    dict_get_default "is_contract" (PInt 0) transaction_data;
    dict_get_default "account_age_days" (PInt 365) transaction_data;
    dict_get_default "balance" (PFloat (F64.of_Z 1000)) transaction_data;
    dict_get_default "token_type_numeric" (PInt 0) transaction_data;
    dict_get_default "high_gas_fee" (PInt 0) transaction_data ]%string.

Definition iso_pred_binary (iso_pred : Z) : Z :=
  if iso_pred =? -1 then 1 else 0.

(** Ensemble prediction (majority vote). *)
Definition ensemble_pred (rf_pred iso_pred : Z) : Z :=
  if rf_pred + iso_pred_binary iso_pred >=? 1 then 1 else 0.

(** Risk factors analysis; [None] when a comparison raises. *)
Definition risk_factors_of (transaction_data : dict)
  : option (list string) :=
  let risk_factors : list string := [] in
  high_amount ←
    py_gt_int (dict_get_default "amount" (PInt 0) transaction_data) 10000;
  let risk_factors :=
    if high_amount : bool
    then risk_factors ++ ["High transaction amount"%string]
    else risk_factors in
  early ←
    py_lt_int (dict_get_default "hour_of_day" (PInt 12) transaction_data) 6;
  late ←
    (if early : bool then Some true
     else py_gt_int
            (dict_get_default "hour_of_day" (PInt 12) transaction_data) 22);
  let risk_factors :=
    if late : bool
    then risk_factors ++ ["Unusual transaction time"%string]
    else risk_factors in
  frequent ←
    py_gt_int (dict_get_default "frequency_24h" (PInt 0) transaction_data) 10;
  let risk_factors :=
    if frequent : bool
    then risk_factors ++ ["High transaction frequency"%string]
    else risk_factors in
  high_gas ←
    py_gt_int (dict_get_default "gas_price" (PInt 0) transaction_data) 50;
  let risk_factors :=
    if high_gas : bool
    then risk_factors ++ ["Unusually high gas price"%string]
    else risk_factors in
  let risk_factors :=
    if truthy (dict_get_default "is_contract" (PInt 0) transaction_data)
    then risk_factors ++ ["Smart contract interaction"%string]
    else risk_factors in
  Some risk_factors.

Definition fmax (a b : float) : float := if F64.gtb b a then b else a.

(** The result object of a successful prediction. *)
Definition prediction_result (rf_pred : Z) (rf_proba : float * float)
    (iso_pred : Z) (risk_factors : list string) (now : string) : dict :=
  [ ("prediction", PInt (ensemble_pred rf_pred iso_pred));
    ("confidence", PFloat (fmax (fst rf_proba) (snd rf_proba)));
    ("risk_score", PFloat (snd rf_proba));
    ("risk_factors", PList (map PStr risk_factors));
    ("models", PDict [
       ("random_forest", PDict [
          ("prediction", PInt rf_pred);
          ("confidence", PFloat (fmax (fst rf_proba) (snd rf_proba)));
          ("probabilities", PDict [
             ("normal", PFloat (fst rf_proba));
             ("illicit", PFloat (snd rf_proba)) ]) ]);
       ("isolation_forest", PDict [
          ("prediction", PInt (iso_pred_binary iso_pred));
          ("anomaly_score", PFloat (F64.of_Z (Z.abs iso_pred))) ]) ]);
    ("timestamp", PStr now);
    ("source", PStr "ml_service") ]%string.

(** The body of the [try]: [None] is an exception, which the handler turns
    into status 400 whatever it was (the 503 of missing models included). *)
Definition predict_body (models : option snapshot) (transaction_data : dict)
    (now : string) : option dict :=
  m ← models;
  let features := features_of transaction_data in
  (if (length features =? length (fitted_feature_names m))%nat
   then Some tt else None) ≫= fun _ =>
  features_scaled ← scaler_transform m features;
  let rf_pred := rf_predict m features_scaled in
  let rf_proba := rf_predict_proba m features_scaled in
  let iso_pred := iso_predict m features_scaled in
  risk_factors ← risk_factors_of transaction_data;
  Some (prediction_result rf_pred rf_proba iso_pred risk_factors now).

Definition predict (models : option snapshot) (transaction_data : dict)
    (now : string) : endpoint dict :=
  match predict_body models transaction_data now with
  | Some result => Result result
  | None => HttpError 400
  end.

End MLService.

(** ** The two services together *)

(** The JSON the handler posts for a feature dict. *)
Definition ml_data_json (data : App.ml_data) : dict :=
  [ ("amount", of_num (App.amount data));
    ("frequency_24h", of_num (App.frequency_24h data));
    ("unique_counterparties", of_num (App.unique_counterparties data));
    ("hour_of_day", of_num (App.hour_of_day data));
    ("gas_price", of_num (App.gas_price data));
    ("is_contract", PBool (App.is_contract data));
    ("account_age_days", of_num (App.account_age_days data));
    ("balance", of_num (App.balance data));
    ("token_type_numeric", PInt (App.token_type_numeric data));
    ("high_gas_fee", PInt (App.high_gas_fee data)) ]%string.

(** The outcome of the POST when the model service is up and answers from
    the snapshot [models]: FastAPI sends the result object, or the error
    body [{"detail": ...}] of an [HTTPException]. *)
Definition served_by (models : option MLService.snapshot) (now : string)
    (data : App.ml_data) : App.ml_call :=
  match MLService.predict models (ml_data_json data) now with
  | MLService.Result result => App.Responds (PDict result)
  | MLService.HttpError _ =>
      App.Responds (PDict [("detail"%string, PStr "error")])
  end.

(** ** Test doubles

    Concrete stand-ins for what the code takes from outside, so that the
    functions above can be run on concrete inputs. *)

Module Double.

(** A linear congruential generator in place of [numpy.random]. *)
Definition step (g : Z) : Z := (g * 1103515245 + 12345) mod 2 ^ 31.

Definition sample (scale : Z) (g : Z) : float * Z :=
  (F64.of_frac (step g mod (scale * 100)) 100, step g).

Definition lcg : MLService.NumpyRandom Z := {|
  MLService.seed := fun s => s mod 2 ^ 31;
  MLService.lognormal := fun _ _ g => sample 20000 g;
  MLService.poisson := fun _ g => (step g mod 20, step g);
  MLService.normal := fun _ _ g => sample 24 g;
  MLService.gamma := fun _ _ g => sample 100 g;
  MLService.exponential := fun _ g => sample 1000 g;
  MLService.uniform := fun lo _ g => (lo, step g);
  MLService.choice_index := fun n _ g =>
    (Z.to_nat (step g mod Z.of_nat n), step g);
  MLService.normal_column := fun _ scales g =>
    Some (map (fun _ => F64.zero) scales, step g)
|}.

(** A fitted snapshot whose classifier votes on the amount and whose
    anomaly detector votes on the transfer frequency. *)
Definition snapshot : MLService.snapshot := {|
  MLService.scaled := list pyval;
  MLService.scaler_transform := fun features => Some features;
  MLService.rf_predict := fun x =>
    match x with
    | v :: _ => if App.py_eq_int v 0 then 0 else 1
    | [] => 0
    end;
  MLService.rf_predict_proba := fun _ => (F64.c0_7, F64.c0_3);
  MLService.iso_predict := fun x =>
    match x with
    | _ :: PInt 0 :: _ => -1
    | _ => 1
    end;
  MLService.fitted_feature_names := MLService.feature_names
|}.

(** The "Likely Illicit Pattern" of the test script as a feature dict. *)
Definition likely_illicit : App.ml_data := {|
  App.amount := NFloat (F64.of_Z 50000);
  App.frequency_24h := NInt 25;
  App.unique_counterparties := NInt 1;
  App.hour_of_day := NInt 4;
  App.gas_price := NFloat (F64.of_Z 300);
  App.is_contract := true;
  App.account_age_days := NInt 1;
  App.balance := NInt 75000;
  App.token_type_numeric := 1;
  App.high_gas_fee := 1
|}.

(** The "Suspicious High-Value ETH" request of the test script. *)
Definition suspicious_request : App.request := {|
  App.req_sender_address :=
    Some (Some "0x000000000000000000000000000000000000000a"%string);
  App.req_receiver_address :=
    Some (Some "0xffffffffffffffffffffffffffffffffffffffff"%string);
  App.req_amount := Some (NInt 25000);
  App.req_token_type := Some "ETH"%string;
  App.req_gas_limit := Some (NInt 21000);
  App.req_gas_price_gwei := Some (NInt 150);
  App.req_frequency_24h := Some (NInt 1);
  App.req_unique_counterparties := Some (NInt 1);
  App.req_hour_of_day := Some (NInt 3);
  App.req_account_age_days := Some (NInt 10);
  App.req_balance := Some (NInt 30000)
|}.


(** The "Normal ETH Transaction" request of the test script. *)
Definition normal_request : App.request := {|
  App.req_sender_address :=
    Some (Some "0x1234567890123456789012345678901234567890"%string);
  App.req_receiver_address :=
    Some (Some "0x0987654321098765432109876543210987654321"%string);
  App.req_amount := Some (NInt 500);
  App.req_token_type := Some "ETH"%string;
  App.req_gas_limit := Some (NInt 21000);
  App.req_gas_price_gwei := Some (NInt 20);
  App.req_frequency_24h := Some (NInt 3);
  App.req_unique_counterparties := Some (NInt 2);
  App.req_hour_of_day := Some (NInt 14);
  App.req_account_age_days := Some (NInt 365);
  App.req_balance := Some (NInt 5000)
|}.

(** A fitted snapshot whose classifier puts probability 0.7004 on the
    illicit class. *)
Definition borderline_snapshot : MLService.snapshot := {|
  MLService.scaled := list pyval;
  MLService.scaler_transform := fun features => Some features;
  MLService.rf_predict := fun _ => 1;
  MLService.rf_predict_proba := fun _ =>
    (F64.of_frac 2996 10000, F64.of_frac 7004 10000);
  MLService.iso_predict := fun _ => 1;
  MLService.fitted_feature_names := MLService.feature_names
|}.

(** The transaction details the handler derives from that request. *)
Definition normal_details : App.transaction_details := {|
  App.td_sender_address :=
    Some "0x1234567890123456789012345678901234567890"%string;
  App.td_receiver_address :=
    Some "0x0987654321098765432109876543210987654321"%string;
  App.td_amount := F64.of_Z 500;
  App.td_token_type := "ETH";
  App.td_gas_limit := 21000;
  App.td_gas_price_gwei := F64.of_Z 20;
  App.td_gas_fee_wei := F64.of_Z 420000000000000;
  App.td_gas_fee_eth := F64.of_frac 42 100000;
  App.td_gas_fee_usd := F64.of_frac 84 100;
  App.td_block_number := PInt 12;
  App.td_network := "Localhost Anvil";
  App.td_timestamp := "2024-01-01T00:00:00"
|}.

(** A logged-in session while the model service answers from it. *)
Definition online : App.environment := {|
  App.authenticated := true;
  App.now_request := "2024-01-01T00:00:00";
  App.now_fallback := "2024-01-01T00:00:10";
  App.block_number := PInt 12;
  App.post_predict :=
    served_by (Some borderline_snapshot) "2024-01-01T00:00:05"
|}.

End Double.

(** ** The claimed behaviour, in the words of the specification *)

(** A binary64 number of the interval [[0, 1]]. *)
Definition in_unit_interval (f : float) : Prop :=
  F64.valid f = true
  /\ F64.leb F64.zero f = true
  /\ F64.leb f F64.one = true.


(** The risk-factor count of the fallback predictor in halves: 2 for each
    of the four unit factors, 1 for the contract factor of one half. *)
Definition risk_factor_halves (data : App.ml_data) : Z :=
  2 * Z.b2z (num_gt_int (App.amount data) 10000)
  + 2 * Z.b2z (num_lt_int (App.hour_of_day data) 6
               || num_gt_int (App.hour_of_day data) 22)
  + 2 * Z.b2z (num_gt_int (App.frequency_24h data) 10)
  + 2 * Z.b2z (num_gt_int (App.gas_price data) 100)
  + Z.b2z (App.is_contract data).

(** Two result objects with the same fields at every level: at the top,
    under [models], and inside both sub-model entries. *)
Definition same_field_sets (a b : dict) : Prop :=
  keys a = keys b
  /\ keys (sub_dict "models" a) = keys (sub_dict "models" b)
  /\ keys (sub_dict "random_forest" (sub_dict "models" a))
     = keys (sub_dict "random_forest" (sub_dict "models" b))
  /\ keys (sub_dict "isolation_forest" (sub_dict "models" a))
     = keys (sub_dict "isolation_forest" (sub_dict "models" b)).


(** A generated row whose flag is derived from its gas price. *)
Definition gas_flag_derived (t : MLService.transaction) : Prop :=
  (MLService.high_gas_fee t = 1
   <-> F64.gtb (MLService.gas_price t) (F64.of_Z 50) = true)
  /\ (MLService.high_gas_fee t = 0
      <-> F64.gtb (MLService.gas_price t) (F64.of_Z 50) = false).

(** A float that is a zero, [+inf] or a positive number of at most 53
    significant bits. *)
Definition nonneg (x : float) : Prop :=
  match x with
  | S754_zero _ => True
  | S754_infinity s => s = false
  | S754_nan => False
  | S754_finite s m _ => s = false /\ Zpos (digits2_pos m) <= 53
  end.

(** The decimal [n / 1000], read as a float, lies in [[0, 1]]. *)
Definition milli_in_unit (n : Z) : bool :=
  F64.leb F64.zero (F64.of_frac n 1000)
  && F64.leb (F64.of_frac n 1000) F64.one.

(** ** Users and sessions ([app.py])

    The SQLite table [users] and the Flask session behind the login pages.
    Of a row the code reads [id], [username], [password_hash] and [role];
    the [created_at] column is filled in by SQLite and never read. *)

Module Auth.

(** [bcrypt], left open: salts come from the random source of the system,
    a state that every [gensalt()] reads and advances. *)
Class Bcrypt (hash salt entropy : Type) : Type := {
  gensalt : entropy -> salt * entropy;
  hashpw : string -> salt -> hash;
  checkpw : string -> hash -> bool
}.

Record user (hash : Type) : Type := {
  user_id : Z;
  username : string;
  password_hash : hash;
  role : string
}.
Arguments user_id {hash} u.
Arguments username {hash} u.
Arguments password_hash {hash} u.
Arguments role {hash} u.

(** The table, and the largest id it ever handed out (the column is
    [AUTOINCREMENT]). *)
Record table (hash : Type) : Type := {
  rows : list (user hash);
  last_id : Z
}.
Arguments rows {hash} t.
Arguments last_id {hash} t.

(** Default users: (username, password, role). *)
Definition default_users : list (string * string * string) :=
  [ ("admin", "admin123", "admin");
    ("user", "password", "user");
    ("demo", "demo123", "user");
    ("aml_analyst", "analyst2024", "analyst") ]%string.

(** [SELECT ... FROM users WHERE username = ?] followed by [fetchone()]. *)
Definition get_user {hash : Type} (t : table hash) (name : string)
  : option (user hash) :=
  find (fun u => String.eqb (username u) name) (rows t).

(** [INSERT INTO users (username, password_hash, role)]: the id is one more
    than every id handed out so far. *)
Definition next_id {hash : Type} (t : table hash) : Z :=
  1 + fold_right Z.max (last_id t) (map user_id (rows t)).

Definition insert_user {hash : Type} (t : table hash) (name : string)
    (h : hash) (r : string) : table hash :=
  {| rows := rows t ++ [ {| user_id := next_id t; username := name;
                            password_hash := h; role := r |} ];
     last_id := next_id t |}.

(** A Flask session: a dict kept in the signed cookie. *)
Abbreviation session := (gmap string pyval).

Inductive response : Type :=
| Redirect (endpoint : string)
| Render (template : string) (context : list (string * pyval))
| Json (status : Z) (body : list (string * pyval))
| InternalError.

(** [flash(message, category)]: appends to the list under [_flashes]. *)
Definition flash (s : session) (message category : string) : session :=
  let flashes := match s !! "_flashes"%string with
                 | Some (PList l) => l
                 | _ => []
                 end in
  <["_flashes"%string :=
      PList (flashes ++ [PList [PStr category; PStr message]])]> s.

(** ['user_id' in session]. *)
Definition logged_in (s : session) : bool :=
  bool_decide (is_Some (s !! "user_id"%string)).

Section Database.

Context {hash salt entropy : Type} `{Bcrypt hash salt entropy}.

(** One round of the loop of [init_db]: insert the user unless the name
    is taken. *)
Definition ensure_user (st : table hash * entropy)
    (u : string * string * string) : table hash * entropy :=
  let '(t, e) := st in
  let '(name, password, r) := u in
  match get_user t name with
  | Some _ => (t, e)
  | None =>
      let '(s, e') := gensalt e in
      (insert_user t name (hashpw password s) r, e')
  end.

(** [init_db()]: [None] is a database file without the table, which
    [CREATE TABLE IF NOT EXISTS] creates empty. *)
Definition init_db (db : option (table hash)) (e : entropy)
  : table hash * entropy :=
  let t := match db with
           | Some t => t
           | None => {| rows := []; last_id := 0 |}
           end in
  fold_left ensure_user default_users (t, e).

Definition verify_password (password : string) (h : hash) : bool :=
  checkpw password h.

(** [POST /login] with both form fields present. *)
Definition login_post (t : table hash) (s : session)
    (name password : string) : response * session :=
  match get_user t name with
  | Some u =>
      if verify_password password (password_hash u)
      then (Redirect "dashboard",
            <["role"%string := PStr (role u)]>
              (<["username"%string := PStr (username u)]>
                 (<["user_id"%string := PInt (user_id u)]> s)))
      else (Render "login.html" [],
            flash s "Invalid username or password" "error")
  | None => (Render "login.html" [],
             flash s "Invalid username or password" "error")
  end.

End Database.

(** [GET /login], [/logout], [/] and the two pages behind the login. *)
Definition login_get (s : session) : response * session :=
  (Render "login.html" [], s).

Definition logout (s : session) : response * session :=
  (Redirect "login",
   flash ∅ "You have been logged out successfully" "success").

Definition index (s : session) : response :=
  if logged_in s then Redirect "dashboard" else Redirect "login".

(** A page that needs a login and shows the user name and role; a session
    with [user_id] but without them raises [KeyError]. *)
Definition protected_page (template : string) (s : session) : response :=
  if negb (logged_in s) then Redirect "login"
  else
    match s !! "username"%string, s !! "role"%string with
    | Some name, Some r => Render template [("username"%string, name);
                                            ("role"%string, r)]
    | _, _ => InternalError
    end.

Definition dashboard : session -> response :=
  protected_page "enhanced_dashboard.html".

Definition blockchain_explorer : session -> response :=
  protected_page "blockchain_explorer.html".

(** [GET /api/system/status]. *)
Definition system_status (s : session) (now : string) : response :=
  if negb (logged_in s)
  then Json 401 [("error"%string, PStr "Authentication required")]
  else Json 200
         [ ("blockchain_node", PStr "running");
           ("smart_contracts", PStr "deployed");
           ("oracle_bridge", PStr "active");
           ("ml_models", PStr "trained");
           ("active_users", PInt 1);
           ("predictions_today", PInt 142);
           ("last_updated", PStr now) ]%string.

(** How a probe of another service ended: its HTTP status, or an
    exception. *)
Inductive probe : Type :=
| Status (code : Z)
| Unreachable.

Definition service_state (p : probe) : string :=
  match p with
  | Status code => if code =? 200 then "online" else "offline"
  | Unreachable => "offline"
  end.

(** [GET /api/health]; a session with [user_id] but no [username] raises
    [KeyError]. *)
Definition api_health (s : session) (now : string)
    (ml_service blockchain : probe) : response :=
  if negb (logged_in s)
  then Json 401 [("error"%string, PStr "Authentication required")]
  else
    match s !! "username"%string with
    | Some name =>
        Json 200
          [ ("status", PStr "healthy");
            ("timestamp", PStr now);
            ("user", name);
            ("services", PDict
               [ ("authentication", PStr "online");
                 ("database", PStr "online");
                 ("ml_service", PStr (service_state ml_service));
                 ("blockchain", PStr (service_state blockchain)) ]) ]%string
    | None => InternalError
    end.

(** The environment of [/api/predict] for a request that carries the
    session [s]. *)
Definition with_session (s : session) (env : App.environment)
  : App.environment :=
  {| App.authenticated := logged_in s;
     App.now_request := App.now_request env;
     App.now_fallback := App.now_fallback env;
     App.block_number := App.block_number env;
     App.post_predict := App.post_predict env |}.

End Auth.

(** A stand-in for [bcrypt]: the "hash" is a one-character salt followed by
    the password. *)
Definition plain_bcrypt : Auth.Bcrypt string ascii nat := {|
  Auth.gensalt := fun n => (ascii_of_nat (48 + n mod 10), S n);
  Auth.hashpw := fun password salt => String salt password;
  Auth.checkpw := fun password h =>
    match h with
    | String _ rest => String.eqb rest password
    | EmptyString => false
    end
|}.

(** Two rows that agree on every field the noise step leaves alone. *)
Definition same_outside_noise (a b : MLService.transaction) : Prop :=
  MLService.frequency_24h a = MLService.frequency_24h b
  /\ MLService.unique_counterparties a = MLService.unique_counterparties b
  /\ MLService.hour_of_day a = MLService.hour_of_day b
  /\ MLService.gas_price a = MLService.gas_price b
  /\ MLService.is_contract a = MLService.is_contract b
  /\ MLService.account_age_days a = MLService.account_age_days b
  /\ MLService.token_type_numeric a = MLService.token_type_numeric b
  /\ MLService.high_gas_fee a = MLService.high_gas_fee b.

(** The table [init_db] works on: the one in the file, or the empty one it
    creates. *)
Definition opened_table {hash : Type} (db : option (Auth.table hash))
  : Auth.table hash :=
  match db with
  | Some t => t
  | None => {| Auth.rows := []; Auth.last_id := 0 |}
  end.


(** * Verification *)

(** ** Binary64 rounding keeps signs and precision

    Every arithmetic result goes through [binary_round_aux], which shifts
    the mantissa down to 53 bits and never changes the sign.  This is what
    the bounds on the aggregated risk score rest on. *)

Section Rounding.

Lemma iter_pos_invariant {A : Type} (f : A -> A) (P : A -> Prop) :
  (forall x, P x -> P (f x)) ->
  forall p x, P x -> P (SpecFloat.iter_pos f p x).
Proof.
  intros Hf. induction p as [p IH|p IH|]; intros x Hx; cbn [SpecFloat.iter_pos]; auto.
Qed.

Lemma shr_1_nonneg (r : shr_record) : 0 <= shr_m r -> 0 <= shr_m (shr_1 r).
Proof.
  destruct r as [m b s]. cbn [shr_m]. intros Hm.
  destruct m as [|[p|p|]|p]; cbn; lia.
Qed.

Lemma shr_1_digits (r : shr_record) :
  Zdigits2 (shr_m (shr_1 r)) = Z.max 0 (Zdigits2 (shr_m r) - 1).
Proof.
  destruct r as [m b s]. cbn [shr_m].
  destruct m as [|[p|p|]|[p|p|]]; cbn [shr_1 shr_m Zdigits2 digits2_pos]; lia.
Qed.

Lemma Zdigits2_nonneg (m : Z) : 0 <= Zdigits2 m.
Proof. destruct m; cbn; lia. Qed.

Lemma iter_shr_1_digits (p : positive) (r : shr_record) :
  Zdigits2 (shr_m (SpecFloat.iter_pos shr_1 p r))
  = Z.max 0 (Zdigits2 (shr_m r) - Zpos p).
Proof.
  revert r. induction p as [p IH|p IH|]; intros r; cbn [SpecFloat.iter_pos].
  - rewrite !IH, shr_1_digits. pose proof (Zdigits2_nonneg (shr_m r)). lia.
  - rewrite !IH. pose proof (Zdigits2_nonneg (shr_m r)). lia.
  - apply shr_1_digits.
Qed.

Lemma shr_nonneg (r : shr_record) (e n : Z) :
  0 <= shr_m r -> 0 <= shr_m (fst (shr r e n)).
Proof.
  intros Hr. destruct n as [|p|p]; cbn [shr fst]; auto.
  apply iter_pos_invariant with (P := fun r => 0 <= shr_m r); auto.
  apply shr_1_nonneg.
Qed.

Lemma shr_record_of_loc_m (m : Z) (l : location) :
  shr_m (shr_record_of_loc m l) = m.
Proof. destruct l as [|[]]; reflexivity. Qed.

Lemma shr_fexp_nonneg (m e : Z) (l : location) :
  0 <= m -> 0 <= shr_m (fst (shr_fexp F64.prec F64.emax m e l)).
Proof.
  intros Hm. unfold shr_fexp. apply shr_nonneg.
  rewrite shr_record_of_loc_m. exact Hm.
Qed.

Lemma shr_fexp_digits (m e : Z) (l : location) :
  Zdigits2 (shr_m (fst (shr_fexp F64.prec F64.emax m e l))) <= 53.
Proof.
  unfold shr_fexp, shr, fexp, emin, F64.prec, F64.emax.
  pose proof (Zdigits2_nonneg m) as Hd.
  destruct (Z.max (Zdigits2 m + e - 53) (3 - 1024 - 53) - e) as [|p|p] eqn:Hn;
    cbn [fst].
  - rewrite shr_record_of_loc_m. lia.
  - rewrite iter_shr_1_digits, shr_record_of_loc_m. lia.
  - rewrite shr_record_of_loc_m. lia.
Qed.

Lemma round_nearest_even_nonneg (m : Z) (l : location) :
  0 <= m -> 0 <= round_nearest_even m l.
Proof.
  intros Hm. destruct l as [|[]]; cbn [round_nearest_even]; try lia.
  destruct (Z.even m); lia.
Qed.

Lemma binary_round_aux_nonneg (m e : Z) (l : location) :
  0 <= m -> nonneg (binary_round_aux F64.prec F64.emax false m e l).
Proof.
  intros Hm. unfold binary_round_aux.
  pose proof (shr_fexp_nonneg m e l Hm) as H1.
  destruct (shr_fexp F64.prec F64.emax m e l) as [mrs' e'].
  cbn [fst] in H1.
  pose proof (round_nearest_even_nonneg _ (loc_of_shr_record mrs') H1) as H2.
  pose proof (shr_fexp_nonneg _ e' loc_Exact H2) as H3.
  pose proof (shr_fexp_digits
                (round_nearest_even (shr_m mrs') (loc_of_shr_record mrs'))
                e' loc_Exact) as H4.
  destruct (shr_fexp F64.prec F64.emax _ e' loc_Exact) as [mrs'' e''].
  cbn [fst] in H3, H4.
  destruct (shr_m mrs'') as [|p|p]; [exact I| |lia].
  cbn [Zdigits2] in H4.
  destruct (e'' <=? F64.emax - F64.prec); cbn [nonneg]; auto.
Qed.

Lemma add_nonneg (x y : float) :
  nonneg x -> nonneg y -> nonneg (F64.add x y).
Proof.
  unfold F64.add.
  destruct x as [sx|sx| |sx mx ex], y as [sy|sy| |sy my ey];
    cbn [SFadd nonneg]; intros Hx Hy; try tauto; subst;
    try (destruct sx, sy; cbn [nonneg]; tauto); try reflexivity.
  destruct Hx as [-> _], Hy as [-> _]. cbn [cond_Zopp].
  set (a := fst (shl_align mx ex (Z.min ex ey))).
  set (b := fst (shl_align my ey (Z.min ex ey))).
  change (Zpos a + Zpos b) with (Zpos (a + b)).
  cbn [binary_normalize]. unfold binary_round.
  destruct (shl_align (a + b) _ _) as [mz ez].
  apply binary_round_aux_nonneg. lia.
Qed.

Lemma mul_nonneg (x y : float) :
  nonneg x -> nonneg y ->
  (forall s, x <> S754_infinity s) -> (forall s, y <> S754_infinity s) ->
  nonneg (F64.mul x y).
Proof.
  unfold F64.mul.
  destruct x as [sx|sx| |sx mx ex], y as [sy|sy| |sy my ey];
    cbn [SFmul nonneg]; intros Hx Hy Nx Ny; try tauto;
    try (exfalso; eapply Nx; reflexivity);
    try (exfalso; eapply Ny; reflexivity).
  destruct Hx as [-> _], Hy as [-> _]. cbn [xorb].
  apply binary_round_aux_nonneg. lia.
Qed.

Lemma div_nonneg (x : float) (my : positive) (ey : Z) :
  nonneg x -> nonneg (F64.div x (S754_finite false my ey)).
Proof.
  unfold F64.div.
  destruct x as [sx|sx| |sx mx ex]; cbn [SFdiv nonneg]; intros Hx; try tauto.
  - subst. reflexivity.
  - destruct Hx as [-> _]. cbn [xorb].
    unfold SFdiv_core_binary.
    set (m' := match _ with Z0 => _ | Zpos _ => _ | Zneg _ => _ end).
    assert (Hm' : 0 <= m').
    { subst m'. destruct (_ - _ - _); try lia. apply Z.shiftl_nonneg. lia. }
    pose proof (Z.div_eucl_eq m' (Zpos my) ltac:(lia)) as Heq.
    pose proof (Z.mod_pos_bound m' (Zpos my) ltac:(lia)) as Hr.
    unfold Z.modulo in Hr.
    destruct (Z.div_eucl m' (Zpos my)) as [q r].
    apply binary_round_aux_nonneg. nia.
Qed.

End Rounding.

(** ** Rounding a value below one to three decimals *)

Section UnitInterval.

Lemma valid_nonneg (f : float) :
  F64.valid f = true -> F64.leb F64.zero f = true -> nonneg f.
Proof.
  destruct f as [s|s| |s m e]; cbn; try (intros; exact I).
  - destruct s; intros; congruence.
  - intros; discriminate.
  - intros Hv Hs. split; [destruct s; [discriminate|reflexivity]|].
    unfold F64.valid, valid_binary, bounded, canonical_mantissa in Hv.
    apply andb_true_iff in Hv. destruct Hv as [Hc _].
    apply Z.eqb_eq in Hc. unfold fexp, emin, F64.prec, F64.emax in Hc. lia.
Qed.

Lemma digits2_pos_bound (m : positive) :
  Zpos m < 2 ^ Zpos (digits2_pos m).
Proof.
  induction m as [m IH|m IH|]; cbn [digits2_pos].
  - rewrite Pos2Z.inj_succ, Z.pow_succ_r by lia. lia.
  - rewrite Pos2Z.inj_succ, Z.pow_succ_r by lia. lia.
  - reflexivity.
Qed.

Lemma round_half_even_div_bound (n d k : Z) :
  0 <= n -> 0 < d -> 0 <= k -> n <= k * d ->
  0 <= F64.round_half_even_div n d <= k.
Proof.
  intros Hn Hd Hk Hle. unfold F64.round_half_even_div.
  pose proof (Z.div_mod n d ltac:(lia)) as Hdm.
  pose proof (Z.mod_pos_bound n d Hd) as Hr.
  assert (Hq : 0 <= n / d) by (apply Z.div_pos; lia).
  assert (Hqk : n / d <= k) by (apply Z.div_le_upper_bound; lia).
  destruct (Z.compare_spec (2 * (n mod d)) d) as [He|Hl|Hg].
  - destruct (Z.even (n / d)); [lia|]. 
    assert (n / d <> k) by nia. lia.
  - lia.
  - assert (n / d <> k) by nia. lia.
Qed.

Lemma milli_table :
  forallb milli_in_unit (map Z.of_nat (seq 0 1001)) = true.
Proof. vm_compute. reflexivity. Qed.

Lemma milli_in_unit_all (n : Z) : 0 <= n <= 1000 -> milli_in_unit n = true.
Proof.
  intros Hn. pose proof milli_table as Ht.
  rewrite forallb_forall in Ht. apply Ht.
  apply in_map_iff. exists (Z.to_nat n). split; [lia|].
  apply in_seq. lia.
Qed.

Lemma round_below_one (x : float) :
  nonneg x -> F64.ltb F64.one x = false ->
  F64.leb F64.zero (F64.round x 3) = true
  /\ F64.leb (F64.round x 3) F64.one = true.
Proof.
  destruct x as [s|s| |s m e]; cbn [nonneg F64.round].
  - intros _ _. destruct s; split; reflexivity.
  - intros -> H. discriminate.
  - tauto.
  - intros [-> Hd] Hlt.
    assert (Hm : Zpos m < 2 ^ 53).
    { pose proof (digits2_pos_bound m).
      assert (2 ^ Zpos (digits2_pos m) <= 2 ^ 53)
        by (apply Z.pow_le_mono_r; lia). lia. }
    assert (He : exists k, e = Zneg k /\ Zpos m <= 2 ^ Zpos k).
    { unfold F64.ltb, SFltb, SFcompare, F64.one in Hlt.
      destruct (Z.compare_spec (-52) e) as [Heq|Hl|Hg]; [| discriminate |].
      - subst e. exists 52%positive. split; [reflexivity|].
        change (Pos.compare_cont Eq 4503599627370496 m)
          with (Z.compare (Zpos 4503599627370496) (Zpos m)) in Hlt.
        destruct (Z.compare_spec (Zpos 4503599627370496) (Zpos m));
          [lia | discriminate | lia].
      - destruct e as [|e|k]; try lia. exists k. split; [reflexivity|].
        assert (2 ^ 53 <= 2 ^ Zpos k) by (apply Z.pow_le_mono_r; lia). lia. }
    destruct He as (k & -> & Hk).
    unfold F64.scaled_decimal.
    change (10 ^ Z.of_nat 3) with 1000.
    pose proof (round_half_even_div_bound (Zpos m * 1000) (2 ^ Zpos k) 1000
                  ltac:(lia) ltac:(apply Z.pow_pos_nonneg; lia) ltac:(lia)
                  ltac:(lia)) as Hb.
    pose proof (milli_in_unit_all _ Hb) as Hu.
    unfold milli_in_unit in Hu. apply andb_true_iff in Hu.
    destruct (F64.round_half_even_div (Zpos m * 1000) (2 ^ Zpos k)) as [|n|n];
      [split; reflexivity | | lia].
    exact Hu.
Qed.

End UnitInterval.

(** ** Address heuristics *)


(** ** Fallback predictor *)

(** The five checks of the fallback predictor read the input through six
    comparisons; this splits a goal along their outcomes. *)
Ltac fallback_cases data :=
  unfold App.enhanced_fallback_prediction, App.fallback_risk_factors,
    risk_factor_halves;
  destruct (num_gt_int (App.amount data) 10000),
           (num_lt_int (App.hour_of_day data) 6),
           (num_gt_int (App.hour_of_day data) 22),
           (num_gt_int (App.frequency_24h data) 10),
           (num_gt_int (App.gas_price data) 100),
           (App.is_contract data).

(** Claim C3.  The risk-factor count of the fallback predictor is 1 for an
    amount above 10000, 1 for an hour below 6 or above 22, 1 for more than
    10 transfers in 24 hours, 1 for a gas price above 100 and 0.5 for a
    contract.  The prediction is illicit iff the count is at least 2, the
    confidence is min(0.7 + 0.1 * min(count, 3), 0.95) and the risk score is
    min(count / 4.0, 1).  For amount 50000, frequency 25, gas price 300,
    hour 4 and a contract the count is at least 3, the prediction is illicit
    and the confidence is 0.95. *)
Theorem fallback_prediction_spec (data : App.ml_data) (now : string) :
  let r := App.enhanced_fallback_prediction data now in
  let halves := risk_factor_halves data in
  let count := F64.of_frac halves 2 in
  let example := App.enhanced_fallback_prediction Double.likely_illicit now in
  num_to_float (fst (App.fallback_risk_factors data)) = count
  /\ dict_get "prediction" r = Some (PInt (if 4 <=? halves then 1 else 0))
  /\ dict_get "confidence" r
     = Some (PFloat
               (F64.min
                  (F64.add F64.c0_7
                     (F64.mul F64.c0_1 (F64.min count (F64.of_Z 3))))
                  F64.c0_95))
  /\ dict_get "risk_score" r
     = Some (PFloat (F64.min (F64.div count F64.c4_0) F64.one))
  /\ F64.geb (num_to_float (fst (App.fallback_risk_factors
                                   Double.likely_illicit))) (F64.of_Z 3)
     = true
  /\ dict_get "prediction" example = Some (PInt 1)
  /\ dict_get "confidence" example = Some (PFloat F64.c0_95).
Proof.
  cbv zeta. fallback_cases data; vm_compute; repeat split; reflexivity.
Qed.

(** Claim C10.  In every result of the fallback predictor the synthesized
    random_forest prediction and the synthesized isolation_forest prediction
    both equal the top-level prediction: the count is a multiple of one half,
    so "above 1.5" and "at least 2" select the same inputs. *)
Theorem fallback_breakdown_consistent (data : App.ml_data) (now : string) :
  let r := App.enhanced_fallback_prediction data now in
  let models := sub_dict "models" r in
  exists p : Z,
    dict_get "prediction" r = Some (PInt p)
    /\ dict_get "prediction" (sub_dict "random_forest" models)
       = Some (PInt p)
    /\ dict_get "prediction" (sub_dict "isolation_forest" models)
       = Some (PInt p)
    /\ num_to_float (fst (App.fallback_risk_factors data))
       = F64.of_frac (risk_factor_halves data) 2
    /\ (p = 1 <-> 4 <= risk_factor_halves data)
    /\ (p = 1 <-> 3 < risk_factor_halves data).
Proof.
  cbv zeta. exists (if 4 <=? risk_factor_halves data then 1 else 0).
  split; [|split; [|split; [|split]]].
  1-4: fallback_cases data; vm_compute; reflexivity.
  destruct (Z.leb_spec 4 (risk_factor_halves data));
    split; split; intros; try lia; discriminate.
Qed.

(** ** Feature extraction *)

(** Claim C4.  The claim holds for the generator that produces the training
    table, not for the handler: on the "Suspicious High-Value ETH" request
    of the test script (gas limit 21000, gas price 150) the handler sends
    [high_gas_fee = 0], since the fee of 0.00315 is not above 0.01, although
    the gas price is above 50; the generator flags the same gas price. *)
Theorem high_gas_fee_skew :
  exists features,
    App.request_features Double.suspicious_request = Some features
    /\ App.gas_price features = NFloat (F64.of_Z 150)
    /\ num_gt_int (App.gas_price features) 50 = true
    /\ App.high_gas_fee features = 0
    /\ MLService.high_gas_fee_flag
         {| MLService.amount := F64.of_Z 25000;
            MLService.frequency_24h := 1;
            MLService.unique_counterparties := 1;
            MLService.hour_of_day := F64.of_Z 3;
            MLService.gas_price := F64.of_Z 150;
            MLService.is_contract := 1;
            MLService.account_age_days := F64.of_Z 10;
            MLService.balance := F64.of_Z 30000;
            MLService.token_type_numeric := 0;
            MLService.high_gas_fee := 0 |} = 1.
Proof.
  eexists. split; [vm_compute; reflexivity|]. vm_compute. auto.
Qed.

(** ** Ensemble predictor *)

(** A successful call of the endpoint went through every step of its body:
    the features were scaled, the comparisons of the risk-factor analysis
    did not raise, and the result object was built from the three model
    answers. *)
Lemma predict_result_inv (m : MLService.snapshot) (td : dict) (now : string)
    (result : dict) :
  MLService.predict (Some m) td now = MLService.Result result ->
  exists (x : MLService.scaled m) (factors : list string),
    MLService.scaler_transform m (MLService.features_of td) = Some x
    /\ MLService.risk_factors_of td = Some factors
    /\ result
       = MLService.prediction_result (MLService.rf_predict m x)
           (MLService.rf_predict_proba m x) (MLService.iso_predict m x)
           factors now.
Proof.
  unfold MLService.predict, MLService.predict_body.
  cbn [mbind option_bind].
  destruct (length (MLService.features_of td)
            =? length (MLService.fitted_feature_names m))%nat;
    cbn; [|discriminate].
  destruct (MLService.scaler_transform m (MLService.features_of td))
    as [x|]; cbn; [|discriminate].
  destruct (MLService.risk_factors_of td) as [factors|]; cbn;
    [|discriminate].
  intros [= <-]. exists x, factors. auto.
Qed.


(** Claim C2.  Whenever the endpoint returns a result for a scaled feature
    vector, its prediction is 1 iff the classifier vote plus the outlier vote
    (1 for the detector answer -1) is at least 1.  For a classifier that
    votes 0 or 1 this is the OR of the two votes, so the outlier flag alone
    gives an illicit verdict when the classifier says normal. *)
Theorem ensemble_vote_is_or (m : MLService.snapshot) (td : dict)
    (now : string) (result : dict) :
  MLService.predict (Some m) td now = MLService.Result result ->
  exists x : MLService.scaled m,
    MLService.scaler_transform m (MLService.features_of td) = Some x
    /\ let rf_pred := MLService.rf_predict m x in
       let iso_pred := MLService.iso_predict m x in
       let vote := MLService.iso_pred_binary iso_pred in
       let verdict := MLService.ensemble_pred rf_pred iso_pred in
       dict_get "prediction" result = Some (PInt verdict)
       /\ (verdict = 1 <-> rf_pred + vote >= 1)
       /\ (verdict = 0 <-> rf_pred + vote < 1)
       /\ (vote = 1 <-> iso_pred = -1)
       /\ (vote = 0 <-> iso_pred <> -1)
       /\ (rf_pred = 0 \/ rf_pred = 1 ->
           (verdict = 1 <-> rf_pred = 1 \/ vote = 1))
       /\ MLService.ensemble_pred 0 (-1) = 1.
Proof.
  intros Hp.
  destruct (predict_result_inv _ _ _ _ Hp) as (x & factors & Hx & _ & ->).
  exists x. split; [exact Hx|]. cbv zeta.
  split; [reflexivity|].
  unfold MLService.ensemble_pred, MLService.iso_pred_binary.
  destruct (MLService.iso_predict m x =? -1) eqn:Hiso;
    [apply Z.eqb_eq in Hiso | apply Z.eqb_neq in Hiso];
    destruct (MLService.rf_predict m x + _ >=? 1) eqn:Hsum;
    rewrite Z.geb_leb in Hsum;
    [apply Z.leb_le in Hsum | apply Z.leb_gt in Hsum
    |apply Z.leb_le in Hsum | apply Z.leb_gt in Hsum];
    repeat split; intros; try lia; try discriminate.
Qed.

Lemma ensemble_vote_is_or_witness :
  exists result,
    MLService.predict (Some Double.snapshot)
      (ml_data_json Double.likely_illicit) "t"
    = MLService.Result result
    /\ dict_get "prediction" result = Some (PInt 1).
Proof.
  eexists. split; [reflexivity|].
  destruct (ensemble_vote_is_or Double.snapshot
              (ml_data_json Double.likely_illicit) "t" _ eq_refl)
    as (x & Hx & H1 & _).
  vm_compute in Hx. injection Hx as <-. exact H1.
Defined.

(** ** Fallback on a failed call *)





(** ** Shape of the two result objects *)

(** Claim C6, as stated, fails: for the same features the classifier entry
    of the ensemble result has a [probabilities] field that the entry
    synthesized by the fallback predictor lacks. *)
Lemma fallback_shape_differs :
  exists result,
    MLService.predict (Some Double.snapshot)
      (ml_data_json Double.likely_illicit) "t"
    = MLService.Result result
    /\ ~ same_field_sets
           (App.enhanced_fallback_prediction Double.likely_illicit "t")
           result.
Proof.
  eexists. split; [vm_compute; reflexivity|].
  intros (_ & _ & Hrf & _).
  assert (Hin : "probabilities"%string
                ∈ keys (sub_dict "random_forest"
                          (sub_dict "models"
                             (App.enhanced_fallback_prediction
                                Double.likely_illicit "t")))).
  { rewrite Hrf. unfold keys. cbn. set_solver. }
  revert Hin. unfold keys. cbn. set_solver.
Qed.

(** Claim C6, amended.  For the same features the two result objects have
    the same top-level fields, the same two sub-model entries and the same
    fields in the isolation_forest entry; the random_forest entry of the
    ensemble result has the fields of the fallback one and [probabilities]
    in addition.  The source tags differ. *)
Theorem fallback_shape (data : App.ml_data) (now : string)
    (m : MLService.snapshot) (now' : string) (result : dict) :
  MLService.predict (Some m) (ml_data_json data) now'
  = MLService.Result result ->
  let fb := App.enhanced_fallback_prediction data now in
  let rf_fb := sub_dict "random_forest" (sub_dict "models" fb) in
  let rf_result := sub_dict "random_forest" (sub_dict "models" result) in
  (keys fb = keys result)
  /\ (keys (sub_dict "models" fb) = keys (sub_dict "models" result))
  /\ (keys (sub_dict "isolation_forest" (sub_dict "models" fb))
      = keys (sub_dict "isolation_forest" (sub_dict "models" result)))
  /\ (keys rf_result = keys rf_fb ∪ {["probabilities"%string]})
  /\ ~ ("probabilities"%string ∈ keys rf_fb)
  /\ dict_get "source" fb <> dict_get "source" result.
Proof.
  intros Hp.
  destruct (predict_result_inv _ _ _ _ Hp) as (x & factors & _ & _ & ->).
  cbv zeta. unfold App.enhanced_fallback_prediction.
  destruct (App.fallback_risk_factors data) as [rf reasons].
  unfold MLService.prediction_result, keys, sub_dict, dict_get_default.
  cbn [dict_get fields fmap list_fmap fst String.eqb Ascii.eqb Bool.eqb
       list_to_set].
  repeat split; set_solver.
Qed.

Lemma fallback_shape_witness :
  exists result,
    MLService.predict (Some Double.snapshot)
      (ml_data_json Double.likely_illicit) "t"
    = MLService.Result result
    /\ keys (App.enhanced_fallback_prediction Double.likely_illicit "t")
       = keys result.
Proof.
  eexists. split; [reflexivity|].
  exact (proj1 (fallback_shape Double.likely_illicit "t" Double.snapshot "t"
                  _ eq_refl)).
Defined.

(** ** Synthetic data generator *)

Section GeneratorFacts.

Context {rng : Type} `{MLService.NumpyRandom rng}.

Lemma bind_run {A B : Type} (c : MLService.draw A)
    (k : A -> MLService.draw B) (g : rng) :
  MLService.bind c k g = k (fst (c g)) (snd (c g)).
Proof. unfold MLService.bind. destruct (c g). reflexivity. Qed.

Lemma gas_flag_intro (t : MLService.transaction) :
  MLService.high_gas_fee t = MLService.high_gas_fee_flag t ->
  gas_flag_derived t.
Proof.
  unfold gas_flag_derived, MLService.high_gas_fee_flag. intros ->.
  destruct (F64.gtb (MLService.gas_price t) (F64.of_Z 50));
    split; split; intros; try reflexivity; discriminate.
Qed.

Lemma normal_transaction_flag (g : rng) :
  gas_flag_derived (fst (MLService.normal_transaction g)).
Proof.
  apply gas_flag_intro. unfold MLService.normal_transaction.
  repeat rewrite bind_run. reflexivity.
Qed.

Lemma illicit_transaction_flag (g : rng) :
  gas_flag_derived (fst (MLService.illicit_transaction g)).
Proof.
  apply gas_flag_intro. unfold MLService.illicit_transaction.
  repeat rewrite bind_run. reflexivity.
Qed.

Lemma repeat_draw_Forall {A : Type} (P : A -> Prop)
    (c : MLService.draw A) :
  (forall g : rng, P (fst (c g))) ->
  forall n g, Forall P (fst (MLService.repeat_draw n c g)).
Proof.
  intros Hc. induction n as [|n IH]; intros g;
    cbn [MLService.repeat_draw].
  - constructor.
  - repeat rewrite bind_run. cbn. constructor; [apply Hc | apply IH].
Qed.

Lemma repeat_draw_length {A : Type} (c : MLService.draw A) (n : nat)
    (g : rng) :
  length (fst (MLService.repeat_draw n c g)) = n.
Proof.
  revert g. induction n as [|n IH]; intros g;
    cbn [MLService.repeat_draw]; [reflexivity|].
  repeat rewrite bind_run. cbn. rewrite IH. reflexivity.
Qed.

Lemma zip_with_Forall {A B : Type} (P : A -> Prop) (f : A -> B -> A) :
  (forall a b, P a -> P (f a b)) ->
  forall l bs, Forall P l -> Forall P (zip_with f l bs).
Proof.
  intros Hf l. induction l as [|a l IH]; intros bs Hl; cbn.
  - constructor.
  - destruct bs as [|b bs]; [constructor|].
    inversion Hl; subst. constructor; auto.
Qed.

(** Claim C7.  In every table the generator returns, whatever the sample
    count and whatever the draws, each row, normal or illicit, has
    [high_gas_fee = 1] iff its gas price is above 50 and [high_gas_fee = 0]
    otherwise: the flag is computed from the sampled gas price and the
    noise added afterwards touches neither field. *)
Theorem generated_rows_flag (n_samples : Z) (g : rng)
    (df : MLService.dataframe) (names : list string) (g' : rng) :
  MLService.generate_synthetic_data n_samples g = Some (df, names, g') ->
  Forall gas_flag_derived (MLService.rows df).
Proof.
  unfold MLService.generate_synthetic_data.
  destruct (MLService.normal_count n_samples) as [normal_samples|];
    [|discriminate].
  pose proof (repeat_draw_Forall gas_flag_derived
                MLService.normal_transaction normal_transaction_flag
                (Z.to_nat normal_samples) (MLService.seed 42)) as Hn.
  destruct (MLService.repeat_draw (Z.to_nat normal_samples)
              MLService.normal_transaction (MLService.seed 42))
    as [normal_rows g1].
  pose proof (repeat_draw_Forall gas_flag_derived
                MLService.illicit_transaction illicit_transaction_flag
                (Z.to_nat (n_samples - normal_samples)) g1) as Hi.
  destruct (MLService.repeat_draw
              (Z.to_nat (n_samples - normal_samples))
              MLService.illicit_transaction g1) as [illicit_rows g2].
  cbn [fst] in Hn, Hi.
  destruct (MLService.add_noise _ g2) as [[amounts g3]|]; [|discriminate].
  destruct (MLService.add_noise _ g3) as [[balances g4]|]; [|discriminate].
  intros [= <- _ _]. cbn [MLService.rows].
  do 2 (apply zip_with_Forall; [intros a b Ha; exact Ha|]).
  apply Forall_app. split; assumption.
Qed.


End GeneratorFacts.

Lemma generated_rows_flag_witness :
  exists df names g',
    MLService.generate_synthetic_data (H := Double.lcg) 8 0
    = Some (df, names, g')
    /\ length (MLService.rows df) = 8%nat
    /\ Forall gas_flag_derived (MLService.rows df).
Proof.
  destruct (MLService.generate_synthetic_data (H := Double.lcg) 8 0)
    as [[[df names] g']|] eqn:E; [|vm_compute in E; discriminate].
  exists df, names, g'. split; [reflexivity|]. split.
  - vm_compute in E. injection E as <- _ _. reflexivity.
  - exact (generated_rows_flag (H := Double.lcg) 8 0 df names g' E).
Defined.

(** ** Risk aggregator *)

Lemma mul_comm (x y : float) : F64.mul x y = F64.mul y x.
Proof.
  unfold F64.mul.
  destruct x as [sx|sx| |sx mx ex], y as [sy|sy| |sy my ey];
    cbn [SFmul]; try reflexivity;
    try (rewrite xorb_comm; reflexivity).
  rewrite xorb_comm, Pos.mul_comm, Z.add_comm. reflexivity.
Qed.

Lemma mul_const_nonneg (x : float) (my : positive) (ey : Z) :
  nonneg x -> nonneg (F64.mul x (S754_finite false my ey)).
Proof.
  unfold F64.mul.
  destruct x as [sx|sx| |sx mx ex]; cbn [SFmul nonneg]; intros Hx;
    try tauto.
  - subst. reflexivity.
  - destruct Hx as [-> _]. cbn [xorb].
    apply binary_round_aux_nonneg. lia.
Qed.

Lemma unit_nonneg (f : float) : in_unit_interval f -> nonneg f.
Proof. intros (Hv & H0 & _). apply valid_nonneg; assumption. Qed.

(** The capped sum rounds to a score in [[0, 1]]. *)
Lemma capped_round_in_unit (x : float) :
  nonneg x ->
  F64.leb F64.zero (F64.round (F64.min x F64.one) 3) = true
  /\ F64.leb (F64.round (F64.min x F64.one) 3) F64.one = true.
Proof.
  intros Hx. unfold F64.min.
  destruct (F64.ltb F64.one x) eqn:Hlt.
  - vm_compute. split; reflexivity.
  - apply round_below_one; assumption.
Qed.

(** Claim C1, as stated, fails: the level is not a function of the reported
    score.  When the model service answers the "Normal ETH Transaction"
    request with risk score 0.7004, the handler reports
    [overall_risk_score] exactly 0.7 together with the level HIGH, where the
    claim has MEDIUM for a score of exactly 0.7. *)
Lemma risk_level_ignores_rounding :
  exists fr,
    App.api_predict Double.online Double.normal_request = App.Ok fr
    /\ App.ml_risk (App.fr_risk_assessment fr)
       = PFloat (F64.of_frac 7004 10000)
    /\ in_unit_interval (F64.of_frac 7004 10000)
    /\ in_unit_interval
         (App.sender_risk_score (App.fr_address_analysis fr))
    /\ in_unit_interval
         (App.receiver_risk_score (App.fr_address_analysis fr))
    /\ App.overall_risk_score (App.fr_risk_assessment fr) = F64.c0_7
    /\ App.level (App.fr_risk_assessment fr) = App.HIGH
    /\ App.classify_risk
         (App.overall_risk_score (App.fr_risk_assessment fr))
       = App.MEDIUM.
Proof.
  eexists. split; [vm_compute; reflexivity|].
  vm_compute. repeat split; reflexivity.
Qed.

(** Claim C1, amended.  For a predictor result whose risk score is a float
    in [[0, 1]], address risk scores in [[0, 1]] and any gas fee, the
    aggregator returns [overall_risk_score] = min(ml_risk + 0.3 *
    mean(sender_risk, receiver_risk) + gas_risk, 1) rounded to 3 decimals,
    with gas_risk 0.1 for a fee above 0.01 and 0 otherwise, and the score
    lies in [[0, 1]].  The level is decided by the sum before rounding: HIGH
    iff it is above 0.7, MEDIUM iff it is above 0.4 and not above 0.7, LOW
    otherwise; a sum of exactly 0.4 gives LOW and of exactly 0.7 MEDIUM. *)
Theorem risk_assessment_spec (d : dict) (td : App.transaction_details)
    (aa : App.address_analysis) (ml : float) :
  dict_get_default "risk_score" (PInt 0) d = PFloat ml ->
  in_unit_interval ml ->
  in_unit_interval (App.sender_risk_score aa) ->
  in_unit_interval (App.receiver_risk_score aa) ->
  let mean :=
    F64.div (F64.add (App.sender_risk_score aa)
                     (App.receiver_risk_score aa)) (F64.of_Z 2) in
  let gas :=
    if F64.gtb (App.td_gas_fee_eth td) F64.c0_01
    then F64.c0_1 else F64.zero in
  let overall :=
    F64.min (F64.add (F64.add ml (F64.mul F64.c0_3 mean)) gas) F64.one in
  exists ra,
    App.calculate_risk_assessment (PDict d) td aa = Some ra
    /\ App.overall_risk_score ra = F64.round overall 3
    /\ F64.leb F64.zero (App.overall_risk_score ra) = true
    /\ F64.leb (App.overall_risk_score ra) F64.one = true
    /\ (App.level ra = App.HIGH <-> F64.gtb overall F64.c0_7 = true)
    /\ (App.level ra = App.MEDIUM
        <-> F64.gtb overall F64.c0_4 = true
            /\ F64.gtb overall F64.c0_7 = false)
    /\ (App.level ra = App.LOW
        <-> F64.gtb overall F64.c0_4 = false
            /\ F64.gtb overall F64.c0_7 = false)
    /\ (overall = F64.c0_4 -> App.level ra = App.LOW)
    /\ (overall = F64.c0_7 -> App.level ra = App.MEDIUM).
Proof.
  intros Hd Hml Hs Hr. cbv zeta.
  unfold App.calculate_risk_assessment, App.overall_risk.
  rewrite Hd. cbn [App.py_add_float as_num].
  eexists. split; [reflexivity|].
  cbn [App.overall_risk_score App.level].
  assert (Hgas : num_to_float (App.gas_risk_of td)
                 = if F64.gtb (App.td_gas_fee_eth td) F64.c0_01
                   then F64.c0_1 else F64.zero).
  { unfold App.gas_risk_of.
    destruct (F64.gtb (App.td_gas_fee_eth td) F64.c0_01); reflexivity. }
  rewrite Hgas. unfold App.mean_address_risk.
  rewrite (mul_comm _ F64.c0_3).
  set (sum := F64.add (F64.add ml _) _).
  assert (Hsum : nonneg sum).
  { subst sum. apply add_nonneg; [apply add_nonneg|].
    - apply unit_nonneg, Hml.
    - rewrite mul_comm. apply mul_const_nonneg.
      change (F64.of_Z 2) with (S754_finite false 4503599627370496 (-51)).
      apply div_nonneg, add_nonneg; apply unit_nonneg; assumption.
    - destruct (F64.gtb (App.td_gas_fee_eth td) F64.c0_01);
        cbn; [split; [reflexivity|lia] | exact I]. }
  destruct (capped_round_in_unit sum Hsum) as [Hlo Hhi].
  split; [reflexivity|]. split; [exact Hlo|]. split; [exact Hhi|].
  unfold App.classify_risk.
  repeat split; intros;
    repeat match goal with
           | H : _ /\ _ |- _ => destruct H
           | H : F64.min sum F64.one = _ |- _ => rewrite H in *; clear H
           end;
    try (destruct (F64.gtb (F64.min sum F64.one) F64.c0_7) eqn:?;
         destruct (F64.gtb (F64.min sum F64.one) F64.c0_4) eqn:?);
    try reflexivity; try discriminate; try congruence.
Qed.

Lemma risk_assessment_spec_witness :
  exists ra,
    App.calculate_risk_assessment
      (PDict (App.enhanced_fallback_prediction Double.likely_illicit "t"))
      Double.normal_details
      (App.analyze_addresses
         (Some "0x000000000000000000000000000000000000000b"%string)
         (Some "0x1234567890123456789012345678901234567cde"%string))
    = Some ra
    /\ App.overall_risk_score ra = F64.one
    /\ App.level ra = App.HIGH.
Proof.
  destruct (risk_assessment_spec
              (App.enhanced_fallback_prediction Double.likely_illicit "t")
              Double.normal_details
              (App.analyze_addresses
                 (Some "0x000000000000000000000000000000000000000b"%string)
                 (Some "0x1234567890123456789012345678901234567cde"%string))
              F64.one)
    as (ra & Hra & Hscore & _ & _ & Hhigh & _).
  - vm_compute. reflexivity.
  - vm_compute. repeat split; reflexivity.
  - vm_compute. repeat split; reflexivity.
  - vm_compute. repeat split; reflexivity.
  - exists ra. split; [exact Hra|]. split.
    + rewrite Hscore. vm_compute. reflexivity.
    + apply Hhigh. vm_compute. reflexivity.
Defined.

(** * Further properties of the code *)

(** ** Address heuristics *)

Lemma ascii_lower_idem (c : ascii) : ascii_lower (ascii_lower c) = ascii_lower c.
Proof. destruct c as [[] [] [] [] [] [] [] []]; vm_compute; reflexivity. Qed.

Lemma lower_idem (s : string) : lower (lower s) = lower s.
Proof.
  induction s as [|c s IH]; cbn [lower]; [reflexivity|].
  rewrite ascii_lower_idem, IH. reflexivity.
Qed.

Lemma lower_length (s : string) : String.length (lower s) = String.length s.
Proof. induction s as [|c s IH]; cbn; congruence. Qed.

Lemma lower_empty (s : string) : String.eqb (lower s) "" = String.eqb s "".
Proof. destruct s; reflexivity. Qed.



(** Property X1.  The relatedness check is symmetric; it fails as soon as one address is
    absent or empty, and every other address is related to itself. *)
Theorem related_symmetric (a b : option string) :
  App.are_addresses_related a b = App.are_addresses_related b a
  /\ App.are_addresses_related None b = false
  /\ App.are_addresses_related (Some ""%string) b = false
  /\ App.are_addresses_related a a = negb (py_not a).
Proof.
  unfold App.are_addresses_related. repeat split.
  - destruct (py_not a), (py_not b); cbn; try reflexivity.
    apply String.eqb_sym.
  - destruct (py_not a); cbn; [reflexivity|]. apply String.eqb_refl.
Qed.



(** ** Fallback predictor: ranges *)

(** Property X3.  The fallback predictor reports a confidence between 0.7 and 0.95 and a
    risk score between 0 and 1; its verdict is illicit exactly when the
    risk score is at least 0.5, and it lists no risk factor exactly when
    the risk score is 0. *)
Theorem fallback_ranges (data : App.ml_data) (now : string) :
  let r := App.enhanced_fallback_prediction data now in
  exists (p : Z) (confidence score : float) (factors : list pyval),
    dict_get "prediction" r = Some (PInt p)
    /\ dict_get "confidence" r = Some (PFloat confidence)
    /\ dict_get "risk_score" r = Some (PFloat score)
    /\ dict_get "risk_factors" r = Some (PList factors)
    /\ F64.valid confidence = true
    /\ F64.leb F64.c0_7 confidence = true
    /\ F64.leb confidence F64.c0_95 = true
    /\ in_unit_interval score
    /\ (p = 0 \/ p = 1)
    /\ (p =? 1) = F64.geb score F64.c0_5
    /\ (length factors <= 5)%nat
    /\ (length factors =? 0)%nat = F64.eqb score F64.zero.
Proof.
  cbv zeta. fallback_cases data; do 4 eexists;
    (split; [reflexivity|]); (split; [reflexivity|]);
    (split; [reflexivity|]); (split; [reflexivity|]);
    (split; [vm_compute; reflexivity|]);
    (split; [vm_compute; reflexivity|]);
    (split; [vm_compute; reflexivity|]);
    (split; [vm_compute; repeat split; reflexivity|]);
    (split; [vm_compute; auto|]);
    (split; [vm_compute; reflexivity|]);
    (split; [cbn; lia | vm_compute; reflexivity]).
Qed.
(** ** Recommendation generator *)


(** ** The ensemble endpoint *)

Lemma as_num_of_num (x : num) : as_num (of_num x) = Some x.
Proof. destruct x; reflexivity. Qed.

(** The comparisons of the risk-factor analysis on a posted feature dict are
    the typed ones: they never raise. *)
Lemma posted_risk_factors (data : App.ml_data) :
  MLService.risk_factors_of (ml_data_json data)
  = Some
      ((if num_gt_int (App.amount data) 10000
        then ["High transaction amount"%string] else [])
       ++ (if num_lt_int (App.hour_of_day data) 6
              || num_gt_int (App.hour_of_day data) 22
           then ["Unusual transaction time"%string] else [])
       ++ (if num_gt_int (App.frequency_24h data) 10
           then ["High transaction frequency"%string] else [])
       ++ (if num_gt_int (App.gas_price data) 50
           then ["Unusually high gas price"%string] else [])
       ++ (if App.is_contract data
           then ["Smart contract interaction"%string] else [])).
Proof.
  unfold MLService.risk_factors_of, ml_data_json, dict_get_default.
  cbn [dict_get String.eqb Ascii.eqb Bool.eqb].
  unfold MLService.py_gt_int, MLService.py_lt_int.
  rewrite !as_num_of_num. cbn [mbind option_bind MLService.truthy].
  destruct (num_gt_int (App.amount data) 10000),
           (num_lt_int (App.hour_of_day data) 6),
           (num_gt_int (App.hour_of_day data) 22),
           (num_gt_int (App.frequency_24h data) 10),
           (num_gt_int (App.gas_price data) 50),
           (App.is_contract data); reflexivity.
Qed.

(** Property X5.  The feature dict the handler posts has the fitted feature names as its
    keys, in the fitted order, and the endpoint reads it back field by
    field without using any of its defaults. *)
Theorem posted_features_round_trip (data : App.ml_data) :
  (ml_data_json data).*1 = MLService.feature_names
  /\ MLService.features_of (ml_data_json data)
     = [ of_num (App.amount data);
         of_num (App.frequency_24h data);
         of_num (App.unique_counterparties data);
         of_num (App.hour_of_day data);
         of_num (App.gas_price data);
         PBool (App.is_contract data);
         of_num (App.account_age_days data);
         of_num (App.balance data);
         PInt (App.token_type_numeric data);
         PInt (App.high_gas_fee data) ]
  /\ MLService.features_of (ml_data_json data) = (ml_data_json data).*2
  /\ MLService.features_of []
     = [ PFloat (F64.of_Z 100); PInt 5; PInt 3; PInt 12;
         PFloat (F64.of_Z 20); PInt 0; PInt 365; PFloat (F64.of_Z 1000);
         PInt 0; PInt 0 ].
Proof. repeat split. Qed.

(** Property X6.  The endpoint answers with a result exactly when models are loaded, ten
    feature names were fitted, the scaler accepts the features and no
    comparison of the risk-factor analysis raises; every failure, missing
    models included, is reported with status 400. *)
Theorem predict_outcome (models : option MLService.snapshot) (td : dict)
    (now : string) :
  match MLService.predict models td now with
  | MLService.Result result =>
      exists m (x : MLService.scaled m) factors,
        models = Some m
        /\ length (MLService.fitted_feature_names m) = 10%nat
        /\ MLService.scaler_transform m (MLService.features_of td) = Some x
        /\ MLService.risk_factors_of td = Some factors
        /\ result
           = MLService.prediction_result (MLService.rf_predict m x)
               (MLService.rf_predict_proba m x) (MLService.iso_predict m x)
               factors now
  | MLService.HttpError status =>
      status = 400
      /\ (models = None
          \/ exists m,
               models = Some m
               /\ (length (MLService.fitted_feature_names m) <> 10%nat
                   \/ MLService.scaler_transform m (MLService.features_of td)
                      = None
                   \/ MLService.risk_factors_of td = None))
  end.
Proof.
  unfold MLService.predict, MLService.predict_body.
  destruct models as [m|]; cbn [mbind option_bind]; [|auto].
  change (length (MLService.features_of td)) with 10%nat.
  destruct (10 =? length (MLService.fitted_feature_names m))%nat eqn:Hlen;
    cbn [mbind option_bind].
  - apply Nat.eqb_eq in Hlen.
    destruct (MLService.scaler_transform m (MLService.features_of td))
      as [x|] eqn:Hx; cbn [mbind option_bind].
    + destruct (MLService.risk_factors_of td) as [factors|] eqn:Hf;
        cbn [mbind option_bind].
      * exists m, x, factors. auto.
      * split; [reflexivity|]. right. exists m. auto.
    + split; [reflexivity|]. right. exists m. auto.
  - apply Nat.eqb_neq in Hlen.
    split; [reflexivity|]. right. exists m. split; [reflexivity|]. left. lia.
Qed.



(** ** Comparing floats *)

Lemma SFcompare_antisym (a b : float) :
  SFcompare b a = CompOpp <$> SFcompare a b.
Proof.
  destruct a as [sa|sa| |sa ma ea], b as [sb|sb| |sb mb eb];
    cbn [SFcompare fmap option_fmap option_map CompOpp];
    try reflexivity;
    try (destruct sa; reflexivity); try (destruct sb; reflexivity);
    try (destruct sa, sb; reflexivity).
  destruct sa, sb; try reflexivity;
    rewrite (Z.compare_antisym ea eb);
    destruct (ea ?= eb); cbn [CompOpp]; try reflexivity;
    rewrite ?(Pos.compare_cont_antisym ma mb Eq); reflexivity.
Qed.

Lemma ltb_not_nan (a b : float) :
  F64.ltb a b = true -> a <> S754_nan /\ b <> S754_nan.
Proof.
  unfold F64.ltb, SFltb.
  destruct a, b; cbn [SFcompare]; try discriminate; split; discriminate.
Qed.

Lemma leb_refl (a : float) : a <> S754_nan -> F64.leb a a = true.
Proof.
  unfold F64.leb, SFleb. destruct a as [s|s| |s m e]; cbn [SFcompare];
    try reflexivity; [destruct s; reflexivity | congruence |].
  intros _. destruct s; rewrite Z.compare_refl;
    change (Pos.compare_cont Eq m m) with (Pos.compare m m);
    rewrite Pos.compare_refl; reflexivity.
Qed.

(** The larger of two numbers bounds the second from above. *)
Lemma fmax_bounds (a b : float) :
  a <> S754_nan -> b <> S754_nan ->
  F64.leb b (MLService.fmax a b) = true.
Proof.
  intros Ha Hb. unfold MLService.fmax, F64.gtb.
  destruct (F64.ltb a b) eqn:Hlt; [apply leb_refl; assumption|].
  unfold F64.ltb, SFltb in Hlt. unfold F64.leb, SFleb.
  rewrite SFcompare_antisym.
  destruct (SFcompare a b) as [[]|] eqn:Hc;
    cbn [fmap option_fmap option_map CompOpp]; try reflexivity;
    try discriminate.
  destruct a, b; cbn in Hc; congruence.
Qed.

(** ** Ensemble results *)

(** Property X8.  In every result of the endpoint the confidence is the larger of the two
    class probabilities: when neither is NaN the reported risk score, which
    is the probability of the illicit class, never exceeds the confidence,
    and the same confidence is repeated in the random_forest entry. *)
Theorem confidence_bounds_risk (m : MLService.snapshot) (td : dict)
    (now : string) (result : dict) :
  MLService.predict (Some m) td now = MLService.Result result ->
  exists (x : MLService.scaled m) (confidence : float),
    MLService.scaler_transform m (MLService.features_of td) = Some x
    /\ dict_get "confidence" result = Some (PFloat confidence)
    /\ dict_get "confidence"
         (sub_dict "random_forest" (sub_dict "models" result))
       = Some (PFloat confidence)
    /\ dict_get "risk_score" result
       = Some (PFloat (snd (MLService.rf_predict_proba m x)))
    /\ (confidence = fst (MLService.rf_predict_proba m x)
        \/ confidence = snd (MLService.rf_predict_proba m x))
    /\ (fst (MLService.rf_predict_proba m x) <> S754_nan ->
        snd (MLService.rf_predict_proba m x) <> S754_nan ->
        F64.leb (snd (MLService.rf_predict_proba m x)) confidence = true
        /\ F64.leb (fst (MLService.rf_predict_proba m x)) confidence = true).
Proof.
  intros Hp.
  destruct (predict_result_inv _ _ _ _ Hp) as (x & factors & Hx & _ & ->).
  exists x. eexists. split; [exact Hx|].
  split; [reflexivity|]. split; [reflexivity|]. split; [reflexivity|].
  split.
  - unfold MLService.fmax. destruct (F64.gtb _ _); auto.
  - intros Ha Hb. split; [apply fmax_bounds; assumption|].
    unfold MLService.fmax, F64.gtb.
    destruct (F64.ltb _ _) eqn:Hlt; [|apply leb_refl; assumption].
    unfold F64.ltb, SFltb in Hlt. unfold F64.leb, SFleb.
    destruct (SFcompare _ _) as [[]|]; try discriminate. reflexivity.
Qed.

Lemma confidence_bounds_risk_witness :
  exists result confidence,
    MLService.predict (Some Double.borderline_snapshot) [] "t"
    = MLService.Result result
    /\ dict_get "confidence" result = Some (PFloat confidence)
    /\ F64.leb (F64.of_frac 7004 10000) confidence = true.
Proof.
  destruct (confidence_bounds_risk Double.borderline_snapshot [] "t" _
              eq_refl) as (x & confidence & _ & Hc & _ & _ & _ & Hb).
  eexists. exists confidence. split; [reflexivity|]. split; [exact Hc|].
  apply Hb; vm_compute; discriminate.
Defined.

(** ** Explanations of the two predictors *)

Lemma gt_100_gt_50 (x : num) :
  num_gt_int x 100 = true -> num_gt_int x 50 = true.
Proof.
  destruct x as [z|f]; cbn [num_gt_int].
  - rewrite !Z.ltb_lt. lia.
  - unfold F64.gtb, F64.ltb, SFltb.
    change (F64.of_Z 100) with (S754_finite false 7036874417766400 (-46)).
    change (F64.of_Z 50) with (S754_finite false 7036874417766400 (-47)).
    destruct f as [s|s| |s m e]; cbn [SFcompare]; try (intros; assumption).
    destruct s; [intros; assumption|].
    destruct (Z.compare_spec (-46) e) as [E|E|E];
      destruct (Z.compare_spec (-47) e) as [E'|E'|E'];
      try lia; try discriminate; reflexivity.
Qed.

(** Property X9.  For the same features, every risk factor the fallback predictor names
    for amount, time, frequency or gas price is also named, with the same
    words, by the ensemble endpoint, whose gas price threshold is 50 instead
    of 100; the contract factor is named by both or by neither, under
    different words. *)
Theorem fallback_reasons_covered (data : App.ml_data) (now : string)
    (m : MLService.snapshot) (now' : string) (result : dict) :
  MLService.predict (Some m) (ml_data_json data) now'
  = MLService.Result result ->
  exists reasons factors : list string,
    dict_get "risk_factors" (App.enhanced_fallback_prediction data now)
    = Some (PList (PStr <$> reasons))
    /\ dict_get "risk_factors" result = Some (PList (PStr <$> factors))
    /\ (forall label,
          In label reasons ->
          label = "Interacting with smart contract"%string
          \/ In label factors)
    /\ (In "Interacting with smart contract"%string reasons
        <-> In "Smart contract interaction"%string factors)
    /\ (In "Unusually high gas price"%string factors
        <-> num_gt_int (App.gas_price data) 50 = true)
    /\ (In "Unusually high gas price"%string reasons
        <-> num_gt_int (App.gas_price data) 100 = true).
Proof.
  intros Hp.
  destruct (predict_result_inv _ _ _ _ Hp) as (x & factors & _ & Hf & ->).
  rewrite posted_risk_factors in Hf. injection Hf as <-.
  eexists. eexists.
  split.
  { unfold App.enhanced_fallback_prediction.
    destruct (App.fallback_risk_factors data) as [rf reasons] eqn:E.
    cbn [dict_get String.eqb Ascii.eqb Bool.eqb].
    replace reasons with (snd (App.fallback_risk_factors data))
      by (rewrite E; reflexivity).
    reflexivity. }
  split; [reflexivity|].
  pose proof (gt_100_gt_50 (App.gas_price data)) as Hgas.
  unfold App.fallback_risk_factors.
  destruct (num_gt_int (App.amount data) 10000),
           (num_lt_int (App.hour_of_day data) 6),
           (num_gt_int (App.hour_of_day data) 22),
           (num_gt_int (App.frequency_24h data) 10),
           (num_gt_int (App.gas_price data) 100),
           (num_gt_int (App.gas_price data) 50),
           (App.is_contract data);
    try (specialize (Hgas eq_refl); discriminate Hgas); clear Hgas;
    cbn [orb snd app In];
    (split; [intros label Hin; intuition (subst; auto 10)|]);
    repeat split; intros; try reflexivity;
    intuition (try discriminate; auto 10).
Qed.

Lemma fallback_reasons_covered_witness :
  exists result reasons factors,
    MLService.predict (Some Double.snapshot)
      (ml_data_json Double.likely_illicit) "t" = MLService.Result result
    /\ dict_get "risk_factors" result = Some (PList (PStr <$> factors))
    /\ (forall label,
          In label reasons ->
          label = "Interacting with smart contract"%string
          \/ In label factors).
Proof.
  destruct (fallback_reasons_covered Double.likely_illicit "t"
              Double.snapshot "t" _ eq_refl)
    as (reasons & factors & _ & Hf & Hcov & _).
  eexists. exists reasons, factors.
  split; [reflexivity|]. split; assumption.
Defined.

(** ** The handler when the model service is of no help *)








(** ** Layout of the generated table *)

Section TableLayout.

Context {rng : Type} `{MLService.NumpyRandom rng}.

Lemma add_noise_length (column noisy : list float) (g g' : rng) :
  MLService.add_noise column g = Some (noisy, g') ->
  length noisy = length column.
Proof.
  unfold MLService.add_noise.
  destruct (MLService.normal_column _ _ g) as [[noise g1]|]; [|discriminate].
  destruct (length noise =? length column)%nat eqn:Hlen; [|discriminate].
  apply Nat.eqb_eq in Hlen. intros [= <- _].
  rewrite length_zip_with. lia.
Qed.

Lemma constant_labels {A : Type} (l : list A) (v : Z) :
  map (fun _ => v) l = replicate (length l) v.
Proof. induction l as [|a l IH]; cbn; congruence. Qed.

Lemma noise_keeps_fields (l : list MLService.transaction) :
  forall amounts balances : list float,
    length amounts = length l -> length balances = length l ->
    Forall2 same_outside_noise l
      (zip_with MLService.set_balance
         (zip_with MLService.set_amount l amounts) balances).
Proof.
  induction l as [|t l IH]; intros [|a amounts] [|b balances] Ha Hb;
    try discriminate; cbn [zip_with]; constructor.
  - repeat split.
  - apply IH; cbn in Ha, Hb; lia.
Qed.

(** Property X12.  A returned table has one label per row, all normal rows before all
    illicit rows, [int(n_samples * 0.85)] of the former and the rest of the
    latter; its feature names are the ten column names.  For the 10000
    samples of training that is 8500 normal and 1500 illicit rows. *)
Theorem generated_table_layout (n_samples : Z) (g : rng)
    (df : MLService.dataframe) (names : list string) (g' : rng) :
  MLService.generate_synthetic_data n_samples g = Some (df, names, g') ->
  exists normal_samples,
    MLService.normal_count n_samples = Some normal_samples
    /\ MLService.labels df
       = replicate (Z.to_nat normal_samples) 0
         ++ replicate (Z.to_nat (n_samples - normal_samples)) 1
    /\ length (MLService.rows df) = length (MLService.labels df)
    /\ names = MLService.feature_names
    /\ length names = 10%nat
    /\ MLService.normal_count 10000 = Some 8500.
Proof.
  unfold MLService.generate_synthetic_data.
  destruct (MLService.normal_count n_samples) as [normal_samples|];
    [|discriminate].
  pose proof (repeat_draw_length MLService.normal_transaction
                (Z.to_nat normal_samples) (MLService.seed 42)) as Hn.
  destruct (MLService.repeat_draw (Z.to_nat normal_samples)
              MLService.normal_transaction (MLService.seed 42))
    as [normal_rows g1].
  pose proof (repeat_draw_length MLService.illicit_transaction
                (Z.to_nat (n_samples - normal_samples)) g1) as Hi.
  destruct (MLService.repeat_draw (Z.to_nat (n_samples - normal_samples))
              MLService.illicit_transaction g1) as [illicit_rows g2].
  cbn [fst] in Hn, Hi.
  destruct (MLService.add_noise _ g2) as [[amounts g3]|] eqn:Ha;
    [|discriminate].
  destruct (MLService.add_noise _ g3) as [[balances g4]|] eqn:Hb;
    [|discriminate].
  apply add_noise_length in Ha, Hb.
  rewrite length_map in Ha, Hb. rewrite length_zip_with in Hb.
  rewrite length_app in Ha, Hb.
  intros [= <- <- _]. exists normal_samples.
  cbn [MLService.rows MLService.labels].
  split; [reflexivity|].
  split; [rewrite !constant_labels, Hn, Hi; reflexivity|].
  split; [rewrite !length_zip_with, !length_app, !length_map; lia|].
  repeat split.
Qed.

(** Property X13.  The noise added at the end changes the amount and the balance of a row
    and nothing else: row by row, the other eight fields are the values
    drawn in the two loops. *)
Theorem noise_only_on_amount_and_balance (n_samples : Z) (g : rng)
    (df : MLService.dataframe) (names : list string) (g' : rng) :
  MLService.generate_synthetic_data n_samples g = Some (df, names, g') ->
  exists normal_samples,
    MLService.normal_count n_samples = Some normal_samples
    /\ let normal :=
         MLService.repeat_draw (Z.to_nat normal_samples)
           MLService.normal_transaction (MLService.seed 42) in
       let illicit :=
         MLService.repeat_draw (Z.to_nat (n_samples - normal_samples))
           MLService.illicit_transaction (snd normal) in
       Forall2 same_outside_noise (fst normal ++ fst illicit)
         (MLService.rows df).
Proof.
  unfold MLService.generate_synthetic_data.
  destruct (MLService.normal_count n_samples) as [normal_samples|];
    [|discriminate].
  intros Hgen. exists normal_samples. split; [reflexivity|]. cbv zeta.
  destruct (MLService.repeat_draw (Z.to_nat normal_samples)
              MLService.normal_transaction (MLService.seed 42))
    as [normal_rows g1].
  cbn [fst snd].
  destruct (MLService.repeat_draw (Z.to_nat (n_samples - normal_samples))
              MLService.illicit_transaction g1) as [illicit_rows g2].
  cbn [fst].
  destruct (MLService.add_noise _ g2) as [[amounts g3]|] eqn:Ha;
    [|discriminate].
  destruct (MLService.add_noise _ g3) as [[balances g4]|] eqn:Hb;
    [|discriminate].
  apply add_noise_length in Ha, Hb.
  rewrite length_map in Ha, Hb. rewrite length_zip_with in Hb.
  injection Hgen as <- _ _. cbn [MLService.rows].
  apply noise_keeps_fields; lia.
Qed.

End TableLayout.

Lemma generated_table_layout_witness :
  exists df names g',
    MLService.generate_synthetic_data (H := Double.lcg) 20 7
    = Some (df, names, g')
    /\ MLService.labels df = replicate 17 0 ++ replicate 3 1
    /\ length (MLService.rows df) = 20%nat.
Proof.
  destruct (MLService.generate_synthetic_data (H := Double.lcg) 20 7)
    as [[[df names] g']|] eqn:E; [|vm_compute in E; discriminate].
  destruct (generated_table_layout (H := Double.lcg) 20 7 df names g' E)
    as (k & Hk & Hl & Hr & _).
  vm_compute in Hk. injection Hk as <-.
  exists df, names, g'. split; [reflexivity|]. split; [exact Hl|].
  rewrite Hr, Hl. reflexivity.
Defined.

Lemma noise_only_on_amount_and_balance_witness :
  exists df names g',
    MLService.generate_synthetic_data (H := Double.lcg) 20 7
    = Some (df, names, g')
    /\ Forall2 same_outside_noise
         (fst (MLService.repeat_draw 17
                 (MLService.normal_transaction (H := Double.lcg)) 42)
          ++ fst (MLService.repeat_draw 3
                    (MLService.illicit_transaction (H := Double.lcg))
                    (snd (MLService.repeat_draw 17
                            (MLService.normal_transaction
                               (H := Double.lcg)) 42))))
         (MLService.rows df).
Proof.
  destruct (MLService.generate_synthetic_data (H := Double.lcg) 20 7)
    as [[[df names] g']|] eqn:E; [|vm_compute in E; discriminate].
  destruct (noise_only_on_amount_and_balance (H := Double.lcg) 20 7 df
              names g' E) as (k & Hk & Hrows).
  vm_compute in Hk. injection Hk as <-.
  exists df, names, g'. split; [reflexivity|]. exact Hrows.
Defined.

(** ** Users and sessions *)

Section UserTable.

Context {hash salt entropy : Type} `{Auth.Bcrypt hash salt entropy}.

Implicit Types (t : Auth.table hash) (e : entropy)
  (d : string * string * string).

Lemma find_app_first {A : Type} (f : A -> bool) (l l' : list A) :
  find f (l ++ l') = match find f l with
                     | Some a => Some a
                     | None => find f l'
                     end.
Proof.
  induction l as [|a l IH]; cbn; [reflexivity|]. destruct (f a); auto.
Qed.

Lemma get_user_none t name :
  Auth.get_user t name = None
  <-> ~ In name (map Auth.username (Auth.rows t)).
Proof.
  unfold Auth.get_user. induction (Auth.rows t) as [|u l IH]; cbn.
  - tauto.
  - destruct (String.eqb_spec (Auth.username u) name) as [E|E].
    + split; [discriminate | intros Hn; exfalso; apply Hn; auto].
    + rewrite IH. tauto.
Qed.

Lemma get_user_name t name u :
  Auth.get_user t name = Some u ->
  Auth.username u = name /\ In u (Auth.rows t).
Proof.
  unfold Auth.get_user. intros Hf. apply find_some in Hf.
  destruct Hf as [Hin Heq]. apply String.eqb_eq in Heq. auto.
Qed.

(** One round of the loop: the rows so far stay in place, and at most one
    row, for a name that was free, is added behind them. *)
Lemma ensure_user_rows t e d :
  Auth.rows (fst (Auth.ensure_user (t, e) d))
  = Auth.rows t
    ++ match Auth.get_user t (fst (fst d)) with
       | Some _ => []
       | None =>
           [ {| Auth.user_id := Auth.next_id t;
                Auth.username := fst (fst d);
                Auth.password_hash :=
                  Auth.hashpw (snd (fst d)) (fst (Auth.gensalt e));
                Auth.role := snd d |} ]
       end.
Proof.
  destruct d as [[name password] r]. cbn [Auth.ensure_user fst snd].
  destruct (Auth.get_user t name); cbn [fst].
  - rewrite app_nil_r. reflexivity.
  - destruct (Auth.gensalt e). reflexivity.
Qed.

Lemma ensure_user_keeps t e d name u :
  Auth.get_user t name = Some u ->
  Auth.get_user (fst (Auth.ensure_user (t, e) d)) name = Some u.
Proof.
  intros Hu. unfold Auth.get_user in *.
  rewrite ensure_user_rows, find_app_first, Hu. reflexivity.
Qed.

Lemma ensure_user_present t e d :
  Auth.get_user (fst (Auth.ensure_user (t, e) d)) (fst (fst d)) <> None.
Proof.
  unfold Auth.get_user at 1. rewrite ensure_user_rows, find_app_first.
  fold (Auth.get_user t (fst (fst d))).
  destruct (Auth.get_user t (fst (fst d))); [discriminate|].
  cbn. rewrite String.eqb_refl. discriminate.
Qed.

Lemma ensure_all_keeps (ds : list (string * string * string)) :
  forall t e name u,
    Auth.get_user t name = Some u ->
    Auth.get_user (fst (fold_left Auth.ensure_user ds (t, e))) name = Some u.
Proof.
  induction ds as [|d ds IH]; intros t e name u Hu; [exact Hu|].
  cbn [fold_left].
  destruct (Auth.ensure_user (t, e) d) as [t' e'] eqn:E.
  apply IH. change t' with (fst (t', e')). rewrite <- E.
  apply ensure_user_keeps, Hu.
Qed.

Lemma ensure_all_present (ds : list (string * string * string)) :
  forall t e d,
    In d ds ->
    Auth.get_user (fst (fold_left Auth.ensure_user ds (t, e))) (fst (fst d))
    <> None.
Proof.
  induction ds as [|d0 ds IH]; intros t e d Hin; [contradiction|].
  cbn [fold_left].
  destruct (Auth.ensure_user (t, e) d0) as [t' e'] eqn:E.
  destruct Hin as [-> | Hin]; [|apply IH, Hin].
  pose proof (ensure_user_present t e d) as Hp. rewrite E in Hp.
  cbn [fst] in Hp.
  destruct (Auth.get_user t' (fst (fst d))) as [u|] eqn:Hu;
    [|contradiction].
  rewrite (ensure_all_keeps ds t' e' _ u Hu). discriminate.
Qed.

Lemma ensure_all_fixed (ds : list (string * string * string)) t e :
  (forall d, In d ds -> Auth.get_user t (fst (fst d)) <> None) ->
  fold_left Auth.ensure_user ds (t, e) = (t, e).
Proof.
  induction ds as [|d ds IH]; intros Hall; [reflexivity|].
  cbn [fold_left].
  assert (Hd : Auth.ensure_user (t, e) d = (t, e)).
  { destruct d as [[name password] r]. cbn [Auth.ensure_user].
    specialize (Hall (name, password, r) (or_introl eq_refl)).
    cbn [fst] in Hall. destruct (Auth.get_user t name);
      [reflexivity | contradiction]. }
  rewrite Hd. apply IH. intros d' Hin. apply Hall. right. exact Hin.
Qed.

Lemma ensure_all_rows (ds : list (string * string * string)) :
  forall t e,
    exists added,
      Auth.rows (fst (fold_left Auth.ensure_user ds (t, e)))
      = Auth.rows t ++ added
      /\ Forall (fun u =>
                   (exists d, In d ds /\ Auth.username u = fst (fst d)
                              /\ Auth.role u = snd d)
                   /\ Auth.get_user t (Auth.username u) = None) added
      /\ (NoDup (map Auth.username (Auth.rows t)) ->
          NoDup (map Auth.username (Auth.rows t ++ added))).
Proof.
  induction ds as [|d ds IH]; intros t e.
  - exists []. rewrite app_nil_r. repeat split; auto.
  - cbn [fold_left].
    destruct (Auth.ensure_user (t, e) d) as [t' e'] eqn:E.
    pose proof (ensure_user_rows t e d) as Hrows. rewrite E in Hrows.
    cbn [fst] in Hrows.
    destruct (IH t' e') as (added & Hadded & Hall & Hnodup).
    destruct (Auth.get_user t (fst (fst d))) as [u0|] eqn:Hget.
    + rewrite app_nil_r in Hrows.
      exists added. rewrite Hadded, Hrows. split; [reflexivity|].
      split.
      * eapply Forall_impl; [exact Hall|].
        intros u [(d' & Hin & Hn & Hr) Hfree]. split.
        -- exists d'. split; [right; exact Hin | auto].
        -- rewrite get_user_none in *. rewrite <- Hrows. exact Hfree.
      * rewrite <- Hrows. exact Hnodup.
    + eexists (_ :: added). rewrite Hadded, Hrows, <- app_assoc.
      split; [reflexivity|]. split.
      * constructor.
        -- cbn. split; [|exact Hget].
           exists d. split; [left; reflexivity | split; reflexivity].
        -- eapply Forall_impl; [exact Hall|].
           intros u [(d' & Hin & Hn & Hr) Hfree]. split.
           ++ exists d'. split; [right; exact Hin | auto].
           ++ rewrite get_user_none in *. intros Hin'. apply Hfree.
              rewrite Hrows, map_app. apply in_or_app. auto.
      * intros Hnd.
        assert (Hnd' : NoDup (map Auth.username (Auth.rows t'))).
        { rewrite Hrows, map_app. cbn [map]. apply NoDup_app.
          split; [exact Hnd|]. split; [|apply NoDup_singleton].
          intros x Hx Hx'. apply list_elem_of_singleton in Hx'. subst x.
          apply get_user_none in Hget. apply Hget.
          apply list_elem_of_In. exact Hx. }
        specialize (Hnodup Hnd').
        rewrite Hrows, <- app_assoc in Hnodup. exact Hnodup.
Qed.

End UserTable.

Section Login.

Context {hash salt entropy : Type} `{Auth.Bcrypt hash salt entropy}.

(** Property X14.  [init_db] leaves every existing row in place and adds, behind them,
    one row for each default user whose name was not taken, with the role
    of that default user; afterwards all four default names are in the
    table, and user names that were unique are still unique, so the
    [UNIQUE] constraint of the column never fires. *)
Theorem init_db_effect (db : option (Auth.table hash)) (e : entropy) :
  let before := opened_table db in
  let after := fst (Auth.init_db db e) in
  exists added,
    Auth.rows after = Auth.rows before ++ added
    /\ Forall (fun u =>
                 (exists d, In d Auth.default_users
                            /\ Auth.username u = fst (fst d)
                            /\ Auth.role u = snd d)
                 /\ Auth.get_user before (Auth.username u) = None) added
    /\ (NoDup (map Auth.username (Auth.rows before)) ->
        NoDup (map Auth.username (Auth.rows after)))
    /\ Forall (fun d => Auth.get_user after (fst (fst d)) <> None)
         Auth.default_users.
Proof.
  cbv zeta. unfold Auth.init_db. fold (opened_table db).
  destruct (ensure_all_rows Auth.default_users (opened_table db) e)
    as (added & Hrows & Hall & Hnd).
  exists added. split; [exact Hrows|]. split; [exact Hall|].
  split; [rewrite Hrows; exact Hnd|].
  apply Forall_forall. intros d Hd. apply ensure_all_present.
  apply list_elem_of_In. exact Hd.
Qed.

(** Property X15.  Running [init_db] again changes nothing: no row is added and no salt is
    drawn. *)
Theorem init_db_idempotent (db : option (Auth.table hash))
    (e e' : entropy) :
  Auth.init_db (Some (fst (Auth.init_db db e))) e'
  = (fst (Auth.init_db db e), e').
Proof.
  unfold Auth.init_db at 1. apply ensure_all_fixed.
  intros d Hd. unfold Auth.init_db. apply ensure_all_present, Hd.
Qed.


(** Property X17.  With a [bcrypt] that verifies what it hashed, each of the four default
    users can log in to a freshly initialised database with the default
    password and gets the default role. *)
Theorem default_users_can_log_in (e : entropy) (s : Auth.session)
    (name password r : string) :
  (forall p (x : salt), Auth.checkpw p (Auth.hashpw p x) = true) ->
  In (name, password, r) Auth.default_users ->
  exists s',
    Auth.login_post (fst (Auth.init_db None e)) s name password
    = (Auth.Redirect "dashboard", s')
    /\ s' !! "username"%string = Some (PStr name)
    /\ s' !! "role"%string = Some (PStr r)
    /\ Auth.logged_in s' = true.
Proof.
  intros Hbcrypt Hin.
  unfold Auth.init_db, Auth.default_users. cbn [fold_left].
  unfold Auth.ensure_user at 4. cbn.
  destruct (Auth.gensalt e) as [x1 e1].
  unfold Auth.ensure_user at 3. cbn.
  destruct (Auth.gensalt e1) as [x2 e2].
  unfold Auth.ensure_user at 2. cbn.
  destruct (Auth.gensalt e2) as [x3 e3].
  unfold Auth.ensure_user at 1. cbn.
  destruct (Auth.gensalt e3) as [x4 e4]. cbn [fst].
  unfold Auth.login_post, Auth.verify_password, Auth.logged_in.
  cbn in Hin.
  destruct Hin as [E|[E|[E|[E|[]]]]]; injection E as <- <- <-; cbn;
    rewrite Hbcrypt; eexists; (split; [reflexivity|]);
    (split; [rewrite lookup_insert_ne by discriminate;
             apply lookup_insert_eq|]);
    (split; [apply lookup_insert_eq|]);
    apply bool_decide_eq_true;
    rewrite !lookup_insert_ne by discriminate;
    rewrite lookup_insert_eq; eauto.
Qed.

End Login.

Lemma default_users_can_log_in_witness :
  exists s',
    Auth.login_post (H := plain_bcrypt)
      (fst (Auth.init_db (H := plain_bcrypt) None 0%nat)) ∅
      "aml_analyst" "analyst2024"
    = (Auth.Redirect "dashboard", s')
    /\ s' !! "role"%string = Some (PStr "analyst").
Proof.
  destruct (default_users_can_log_in (H := plain_bcrypt) 0%nat ∅
              "aml_analyst" "analyst2024" "analyst")
    as (s' & Hs & _ & Hr & _).
  - intros p x. cbn. apply String.eqb_refl.
  - cbn. auto 10.
  - exists s'. split; assumption.
Defined.

(** Property X18.  After a logout nobody is logged in: the entry page and both protected
    pages send the browser to the login page, and the three API endpoints
    answer 401, the prediction endpoint before it looks at the request. *)
Theorem logout_revokes (s : Auth.session) (env : App.environment)
    (data : App.request) (now : string) (ml_service blockchain : Auth.probe) :
  let '(page, s') := Auth.logout s in
  page = Auth.Redirect "login"
  /\ Auth.logged_in s' = false
  /\ s' !! "user_id"%string = None
  /\ s' !! "username"%string = None
  /\ s' !! "role"%string = None
  /\ Auth.index s' = Auth.Redirect "login"
  /\ Auth.dashboard s' = Auth.Redirect "login"
  /\ Auth.blockchain_explorer s' = Auth.Redirect "login"
  /\ App.api_predict (Auth.with_session s' env) data = App.Unauthorized
  /\ Auth.system_status s' now
     = Auth.Json 401 [("error"%string, PStr "Authentication required")]
  /\ Auth.api_health s' now ml_service blockchain
     = Auth.Json 401 [("error"%string, PStr "Authentication required")].
Proof.
  unfold Auth.logout.
  assert (Hout : Auth.logged_in
                   (Auth.flash ∅ "You have been logged out successfully"
                      "success") = false).
  { unfold Auth.logged_in, Auth.flash.
    apply bool_decide_eq_false. rewrite lookup_insert_ne by discriminate.
    rewrite lookup_empty. intros [x Hx]. discriminate. }
  unfold Auth.index, Auth.dashboard, Auth.blockchain_explorer,
    Auth.protected_page, Auth.system_status, Auth.api_health,
    App.api_predict, Auth.with_session.
  cbn [App.authenticated]. rewrite Hout. cbn [negb].
  unfold Auth.flash.
  rewrite !lookup_insert_ne by discriminate. rewrite !lookup_empty.
  repeat split.
Qed.

Section LoggedIn.

Context {hash salt entropy : Type} `{Auth.Bcrypt hash salt entropy}.

(** Property X19.  After a successful login the dashboard and the explorer are rendered
    with the name and the role of the row that matched, and the prediction
    endpoint no longer answers 401. *)
Theorem login_opens_pages (t : Auth.table hash) (s s' : Auth.session)
    (name password : string) :
  Auth.login_post t s name password = (Auth.Redirect "dashboard", s') ->
  exists u,
    Auth.get_user t name = Some u
    /\ In u (Auth.rows t)
    /\ Auth.index s' = Auth.Redirect "dashboard"
    /\ Auth.dashboard s'
       = Auth.Render "enhanced_dashboard.html"
           [("username"%string, PStr name);
            ("role"%string, PStr (Auth.role u))]
    /\ Auth.blockchain_explorer s'
       = Auth.Render "blockchain_explorer.html"
           [("username"%string, PStr name);
            ("role"%string, PStr (Auth.role u))]
    /\ forall env data,
         App.api_predict (Auth.with_session s' env) data
         <> App.Unauthorized.
Proof.
  unfold Auth.login_post, Auth.verify_password.
  destruct (Auth.get_user t name) as [u|] eqn:Hu; [|discriminate].
  destruct (Auth.checkpw password (Auth.password_hash u)); [|discriminate].
  intros [= <-]. exists u.
  destruct (get_user_name t name u Hu) as [Hn Hin]. subst name.
  assert (Hlog : Auth.logged_in
                   (<["role"%string := PStr (Auth.role u)]>
                      (<["username"%string := PStr (Auth.username u)]>
                         (<["user_id"%string := PInt (Auth.user_id u)]> s)))
                 = true).
  { unfold Auth.logged_in. apply bool_decide_eq_true.
    rewrite !lookup_insert_ne by discriminate.
    rewrite lookup_insert_eq. eauto. }
  split; [reflexivity|]. split; [exact Hin|].
  unfold Auth.index, Auth.dashboard, Auth.blockchain_explorer,
    Auth.protected_page.
  rewrite Hlog. cbn [negb].
  rewrite lookup_insert_eq.
  rewrite lookup_insert_ne by discriminate. rewrite lookup_insert_eq.
  split; [reflexivity|]. split; [reflexivity|]. split; [reflexivity|].
  intros env data. unfold App.api_predict, Auth.with_session.
  cbn [App.authenticated]. rewrite Hlog. cbn [negb].
  destruct (App.extract_transaction data)
    as [[[[[amount gas_limit] gpg] wei] eth]|]; [|discriminate].
  cbv zeta.
  destruct (App.calculate_risk_assessment _ _ _); [|discriminate].
  destruct (App.generate_recommendations _ _); discriminate.
Qed.

End LoggedIn.

Lemma login_opens_pages_witness :
  exists s',
    Auth.login_post (H := plain_bcrypt)
      (fst (Auth.init_db (H := plain_bcrypt) None 0%nat)) ∅
      "admin" "admin123"
    = (Auth.Redirect "dashboard", s')
    /\ Auth.dashboard s'
       = Auth.Render "enhanced_dashboard.html"
           [("username"%string, PStr "admin");
            ("role"%string, PStr "admin")].
Proof.
  eexists. split; [reflexivity|].
  destruct (login_opens_pages (H := plain_bcrypt)
              (fst (Auth.init_db (H := plain_bcrypt) None 0%nat)) ∅ _
              "admin" "admin123" eq_refl)
    as (u & Hu & _ & _ & Hd & _).
  vm_compute in Hu. injection Hu as <-. exact Hd.
Defined.

(** ** Feature extraction *)

(** Property X20.  The features of a request: the token type is encoded as 0 exactly when
    the field is missing or is the string ETH in capitals, and as 1 for
    anything else; the contract flag is the one of the receiver; a missing
    context field gets its default (5 transfers, 3 counterparties, hour 12,
    365 days, balance 10000.0); amount and gas price are the floats the
    fields convert to, 1000 and 20 by default. *)
Theorem request_features_spec (data : App.request)
    (features : App.ml_data) :
  App.request_features data = Some features ->
  (App.token_type_numeric features = 0
   <-> App.req_token_type data = None
       \/ App.req_token_type data = Some "ETH"%string)
  /\ (App.token_type_numeric features = 1
      <-> exists token, App.req_token_type data = Some token
                        /\ token <> "ETH"%string)
  /\ App.is_contract features
     = App.is_contract_address
         (App.get_or (App.req_receiver_address data) (Some ""%string))
  /\ App.frequency_24h features
     = App.get_or (App.req_frequency_24h data) (NInt 5)
  /\ App.unique_counterparties features
     = App.get_or (App.req_unique_counterparties data) (NInt 3)
  /\ App.hour_of_day features
     = App.get_or (App.req_hour_of_day data) (NInt 12)
  /\ App.account_age_days features
     = App.get_or (App.req_account_age_days data) (NInt 365)
  /\ App.balance features
     = App.get_or (App.req_balance data) (NFloat (F64.of_Z 10000))
  /\ (exists amount,
        App.amount features = NFloat amount
        /\ App.py_float (App.get_or (App.req_amount data) (NInt 1000))
           = Some amount)
  /\ (exists gas_price,
        App.gas_price features = NFloat gas_price
        /\ App.py_float
             (App.get_or (App.req_gas_price_gwei data) (NInt 20))
           = Some gas_price)
  /\ (App.high_gas_fee features = 0 \/ App.high_gas_fee features = 1).
Proof.
  unfold App.request_features, App.extract_transaction.
  destruct (App.py_float (App.get_or (App.req_amount data) (NInt 1000)))
    as [amount|]; [|discriminate].
  destruct (App.py_int (App.get_or (App.req_gas_limit data) (NInt 21000)))
    as [gas_limit|]; [|discriminate].
  destruct (App.py_float
              (App.get_or (App.req_gas_price_gwei data) (NInt 20)))
    as [gpg|]; [|discriminate].
  destruct (F64.of_int gas_limit) as [gl|]; [|discriminate].
  intros [= <-]. cbn.
  split; [|split].
  - destruct (App.req_token_type data) as [token|]; cbn; [|tauto].
    destruct (String.eqb_spec token "ETH") as [->|Hne]; split; auto.
    + discriminate.
    + intros [E|[= E]]; [discriminate | contradiction].
  - destruct (App.req_token_type data) as [token|]; cbn.
    + destruct (String.eqb_spec token "ETH") as [->|Hne]; split.
      * discriminate.
      * intros (t & [= <-] & Ht). contradiction.
      * intros _. exists token. auto.
      * reflexivity.
    + split; [discriminate|]. intros (t & Ht & _). discriminate.
  - repeat split; eauto.
    destruct (F64.gtb _ F64.c0_01); auto.
Qed.

Lemma request_features_spec_witness :
  exists features,
    App.request_features
      {| App.req_sender_address := None;
         App.req_receiver_address := None;
         App.req_amount := None;
         App.req_token_type := Some "eth"%string;
         App.req_gas_limit := None;
         App.req_gas_price_gwei := None;
         App.req_frequency_24h := None;
         App.req_unique_counterparties := None;
         App.req_hour_of_day := None;
         App.req_account_age_days := None;
         App.req_balance := None |} = Some features
    /\ App.token_type_numeric features = 1
    /\ App.hour_of_day features = NInt 12.
Proof.
  eexists. split; [reflexivity|].
  match goal with
  | |- App.token_type_numeric ?f = _ /\ _ =>
      destruct (request_features_spec
                  {| App.req_sender_address := None;
                     App.req_receiver_address := None;
                     App.req_amount := None;
                     App.req_token_type := Some "eth"%string;
                     App.req_gas_limit := None;
                     App.req_gas_price_gwei := None;
                     App.req_frequency_24h := None;
                     App.req_unique_counterparties := None;
                     App.req_hour_of_day := None;
                     App.req_account_age_days := None;
                     App.req_balance := None |} f eq_refl)
        as (_ & Htoken & _ & _ & _ & Hhour & _)
  end.
  split; [|exact Hhour].
  apply Htoken. exists "eth"%string. split; [reflexivity | discriminate].
Defined.
